(** * generate.py: transcript -> outline -> Word document -> PDF

    A shallow embedding of [generate.py] and the properties of its
    interaction client, transcript loader, parallel aggregator, format
    converter and command-line driver.

    Conventions.
    - A Python [str] is a [string]; non-ASCII text is carried by its UTF-8
      bytes.
    - A value decoded from JSON is a [json]; a Python [dict] is an
      association list in insertion order (iteration order matters), with
      look-up by first match.  Fractional numbers do not occur in the
      payloads of this program and are not represented.
    - The outside world (file system, remote service, thread scheduling,
      clock, office binary) enters as explicit arguments; what the script
      does to it is recorded as a list of [event]s.
    - Calls into python-docx are recorded with the arguments the script
      passes; the library's own validation of them is not part of the
      script. *)

From Stdlib Require Import Ascii String ZArith.
From stdpp Require Import base option list strings sorting pretty.

#[local] Set Warnings "-register-all,-notation-for-abbreviation".
Local Open Scope string_scope.
Local Open Scope list_scope.

(** ** JSON values and the Python operations the script applies to them *)

Inductive json : Type :=
  | JNull
  | JBool (b : bool)
  | JNum (n : Z)
  | JStr (s : string)
  | JArr (l : list json)
  | JObj (d : list (string * json)).

(** [d.get(k)] / [k in d] on a dict. *)
Fixpoint dict_lookup (k : string) (d : list (string * json)) : option json :=
  match d with
  | [] => None
  | (k', v) :: d' => if String.eqb k k' then Some v else dict_lookup k d'
  end.

(** Python's [==] on decoded JSON: [True == 1], lists compare element-wise,
    dicts compare as key/value sets. *)
Fixpoint py_eqb (a b : json) {struct a} : bool :=
  match a, b with
  | JNull, JNull => true
  | JBool x, JBool y => Bool.eqb x y
  | JBool x, JNum n | JNum n, JBool x => Z.eqb n (if x then 1 else 0)
  | JNum n, JNum m => Z.eqb n m
  | JStr s, JStr t => String.eqb s t
  | JArr l, JArr m =>
      (fix go (l m : list json) {struct l} : bool :=
         match l, m with
         | [], [] => true
         | x :: l', y :: m' => py_eqb x y && go l' m'
         | _, _ => false
         end) l m
  | JObj d, JObj e =>
      Nat.eqb (length d) (length e) &&
      (fix go (d : list (string * json)) : bool :=
         match d with
         | [] => true
         | (k, v) :: d' =>
             match dict_lookup k e with
             | Some w => py_eqb v w
             | None => false
             end && go d'
         end) d
  | _, _ => false
  end.

(** Truthiness, as tested by [if not x]. *)
Definition py_truthy (j : json) : bool :=
  match j with
  | JNull => false
  | JBool b => b
  | JNum n => negb (Z.eqb n 0)
  | JStr s => match s with EmptyString => false | _ => true end
  | JArr l => match l with [] => false | _ => true end
  | JObj d => match d with [] => false | _ => true end
  end.

Definition py_type_name (j : json) : string :=
  match j with
  | JNull => "NoneType"
  | JBool _ => "bool"
  | JNum _ => "int"
  | JStr _ => "str"
  | JArr _ => "list"
  | JObj _ => "dict"
  end.

(** ** Exceptions *)

(** The classes of [Exception] the script can meet.  [Timeout] is a
    subclass of [RequestException] (both from [requests.exceptions]);
    [FileNotFoundError] is a subclass of [OSError]. *)
Inductive exn_class : Type :=
  | Timeout
  | RequestException
  | ValueError
  | AttributeError
  | TypeError
  | KeyError
  | FileNotFoundError
  | OSError
  | CalledProcessError
  | OtherException.

Record exn : Type := Exn { exn_cls : exn_class; exn_msg : string }.

Definition is_Timeout (e : exn) : bool :=
  match exn_cls e with Timeout => true | _ => false end.

Definition is_RequestException (e : exn) : bool :=
  match exn_cls e with Timeout | RequestException => true | _ => false end.

Definition is_FileNotFoundError (e : exn) : bool :=
  match exn_cls e with FileNotFoundError => true | _ => false end.

(** ** Effects: a trace of events and an outcome *)

(** One piece of a printed line: literal text, [str(j)] of a value, or
    [str(e)] of an exception. *)
Inductive piece : Type :=
  | Lit (s : string)
  | Str (j : json)
  | StrExn (e : exn).

(** A block appended to the python-docx document. *)
Inductive block : Type :=
  | Paragraph (text : string) (centered : bool)
  | TocField (instr : string)
  | Heading (text : json) (level : Z)
  | Bullet (text : json).

Inductive event : Type :=
  | EvPrint (line : list piece)
  | EvPost (url : string) (headers : list (string * string)) (body : json)
           (timeout : Z)
  | EvSave (file_name : string) (doc : list block)
  | EvRun (argv : list string).

(** How a call ends: it returns, an exception propagates, or [sys.exit]. *)
Inductive outcome (A : Type) : Type :=
  | Ret (a : A)
  | Raise (e : exn)
  | Exit (code : Z).
Arguments Ret {A} a.
Arguments Raise {A} e.
Arguments Exit {A} code.

Definition M (A : Type) : Type := (list event * outcome A)%type.

Definition ret {A} (a : A) : M A := ([], Ret a).
Definition raise {A} (e : exn) : M A := ([], Raise e).
Definition exit {A} (code : Z) : M A := ([], Exit code).
Definition emit (ev : event) : M unit := ([ev], Ret tt).
Definition print (line : list piece) : M unit := emit (EvPrint line).
Definition lift {A} (o : outcome A) : M A := ([], o).

Definition bind {A B} (m : M A) (f : A -> M B) : M B :=
  match m with
  | (t, Ret a) => let (t', o) := f a in (t ++ t', o)
  | (t, Raise e) => (t, Raise e)
  | (t, Exit c) => (t, Exit c)
  end.

Notation "'let*' x := m 'in' k" := (bind m (fun x => k))
  (at level 10, x name, m at level 100, k at level 200).

(** [d.get(k, default)]: only a dict has the method. *)
Definition py_get (j : json) (k : string) (dflt : json) : outcome json :=
  match j with
  | JObj d => Ret (from_option id dflt (dict_lookup k d))
  | _ => Raise (Exn AttributeError
                  ("'" +:+ py_type_name j +:+ "' object has no attribute 'get'"))
  end.

Fixpoint mapM {A B} (f : A -> M B) (l : list A) : M (list B) :=
  match l with
  | [] => ret []
  | x :: l' =>
      let* y := f x in
      let* ys := mapM f l' in
      ret (y :: ys)
  end.

(** ** Python built-ins used on strings and decoded values *)

Definition CR : ascii := "013"%char.
Definition LF : ascii := "010"%char.

(** Bytes [10xxxxxx] continue a UTF-8 code point. *)
Definition is_continuation (c : ascii) : bool :=
  let n := nat_of_ascii c in (128 <=? n)%nat && (n <? 192)%nat.

(** The characters of a [str], each with its continuation bytes. *)
Fixpoint utf8_chars (s : string) : list string :=
  match s with
  | EmptyString => []
  | String c rest =>
      match utf8_chars rest with
      | (String c' _ as chunk) :: chunks =>
          if is_continuation c' then String c chunk :: chunks
          else String c EmptyString :: chunk :: chunks
      | chunks => String c EmptyString :: chunks
      end
  end.

(** [s.find(sub)] counted in characters, starting the count at [acc]. *)
Fixpoint str_find (sub s : string) (acc : nat) : option nat :=
  if String.prefix sub s then Some acc
  else match s with
       | EmptyString => None
       | String c rest =>
           str_find sub rest (if is_continuation c then acc else S acc)
       end.

(** Position of the first element equal ([==]) to [v]. *)
Fixpoint list_find_eq (v : json) (l : list json) : option nat :=
  match l with
  | [] => None
  | x :: l' => if py_eqb x v then Some O else S <$> list_find_eq v l'
  end.

(** [container.index(v)]. *)
Definition py_index (container v : json) : outcome nat :=
  match container with
  | JArr l =>
      match list_find_eq v l with
      | Some i => Ret i
      | None => Raise (Exn ValueError "list.index(x): x not in list")
      end
  | JStr s =>
      match v with
      | JStr sub =>
          match str_find sub s O with
          | Some i => Ret i
          | None => Raise (Exn ValueError "substring not found")
          end
      | _ => Raise (Exn TypeError
                      ("must be str, not " +:+ py_type_name v))
      end
  | _ => Raise (Exn AttributeError
                  ("'" +:+ py_type_name container
                   +:+ "' object has no attribute 'index'"))
  end.

(** [for x in j]: a list yields its elements, a str its characters, a dict
    its keys; nothing else is iterable. *)
Definition py_iter (j : json) : outcome (list json) :=
  match j with
  | JArr l => Ret l
  | JStr s => Ret (JStr <$> utf8_chars s)
  | JObj d => Ret ((fun kv => JStr (fst kv)) <$> d)
  | _ => Raise (Exn TypeError
                  ("'" +:+ py_type_name j +:+ "' object is not iterable"))
  end.

(** [j[k]] with a string subscript. *)
Definition py_getitem (j : json) (k : string) : outcome json :=
  match j with
  | JObj d =>
      match dict_lookup k d with
      | Some v => Ret v
      | None => Raise (Exn KeyError ("'" +:+ k +:+ "'"))
      end
  | JArr _ =>
      Raise (Exn TypeError "list indices must be integers or slices, not str")
  | JStr _ => Raise (Exn TypeError "string indices must be integers")
  | _ => Raise (Exn TypeError
                  ("'" +:+ py_type_name j +:+ "' object is not subscriptable"))
  end.

(** [k in j] for a string [k]. *)
Definition py_contains (k : string) (j : json) : outcome bool :=
  match j with
  | JObj d => Ret (bool_decide (is_Some (dict_lookup k d)))
  | JArr l => Ret (bool_decide (is_Some (list_find_eq (JStr k) l)))
  | JStr s => Ret (bool_decide (is_Some (str_find k s O)))
  | _ => Raise (Exn TypeError
                  ("argument of type '" +:+ py_type_name j
                   +:+ "' is not iterable"))
  end.

(** [s.replace(old, new)] for a non-empty [old]: every non-overlapping
    occurrence, left to right.  [skip] counts the characters of a matched
    occurrence still to be dropped. *)
Fixpoint str_replace_from (old new s : string) (skip : nat) : string :=
  match s with
  | EmptyString => EmptyString
  | String c rest =>
      match skip with
      | S n => str_replace_from old new rest n
      | O =>
          if String.prefix old s
          then new +:+ str_replace_from old new rest (String.length old - 1)
          else String c (str_replace_from old new rest O)
      end
  end.

Definition str_replace (old new s : string) : string :=
  str_replace_from old new s O.

(** ** [execute_interaction] *)

(** What [requests.post] hands back: a response, whose [json()] either
    decodes the body or raises [ValueError] ([None]), or an exception. *)
Record response : Type :=
  Response { status_code : Z; text : string; resp_json : option json }.

Inductive post_outcome : Type :=
  | PostResponse (r : response)
  | PostRaise (e : exn).

Definition error_value (msg : string) : json := JObj [("error", JStr msg)].

Definition execute_interaction (reply : post_outcome)
    (interaction_id token : string) (data : json) : M json :=
  let url :=
    "https://studio-server-production.api.becomposable.com/api/v1/interactions/"
    +:+ interaction_id +:+ "/execute" in
  let headers :=
    [("Authorization", "Bearer " +:+ token); ("Accept", "application/json")] in
  let payload := JObj [("data", data); ("stream", JBool false)] in
  let* _ := emit (EvPost url headers payload 120) in
  match reply with
  | PostResponse response =>
      if Z.eqb (status_code response) 200 then
        match resp_json response with
        | Some body => ret body
        | None => ret (error_value "Invalid JSON response")
        end
      else
        ret (error_value ("Error: " +:+ pretty (status_code response)
                          +:+ " - " +:+ text response))
  | PostRaise e =>
      if is_Timeout e then
        ret (error_value
               "The request timed out. Try increasing the timeout duration.")
      else if is_RequestException e then
        ret (error_value ("An error occurred: " +:+ exn_msg e))
      else raise e
  end.

(** ** [read_file_as_json] *)

(** The file behind a path: its decoded text as stored, or the exception
    that [open]/[read] raises. *)
Inductive read_outcome : Type :=
  | ReadText (stored : string)
  | ReadRaise (e : exn).

(** Text mode with the default [newline=None]: on input, [\r\n] and a lone
    [\r] are both handed to the caller as [\n]. *)
Fixpoint universal_newlines (s : string) : string :=
  match s with
  | EmptyString => EmptyString
  | String c rest =>
      if Ascii.eqb c CR then
        String LF
          match rest with
          | String c' rest' =>
              if Ascii.eqb c' LF then universal_newlines rest'
              else universal_newlines rest
          | EmptyString => EmptyString
          end
      else String c (universal_newlines rest)
  end.

Definition read_file_as_json (fs : string -> read_outcome)
    (filename : string) : M json :=
  match fs filename with
  | ReadText stored =>
      let content := universal_newlines stored in
      ret (JObj [("transcript", JStr content)])
  | ReadRaise e =>
      if is_FileNotFoundError e then
        let* _ := print [Lit ("Error: The file '" +:+ filename
                              +:+ "' was not found.")] in
        exit 1
      else raise e
  end.

(** ** [call_second_interaction_parallel] *)

Record section : Type := MkSection { title : json; subsections : json }.

Definition call_second_outline (reply : post_outcome)
    (second_interaction_id token : string)
    (transcript first_level_outline outline_item : json) : M section :=
  let data := JObj [("transcript", transcript);
                    ("first_level_outline", first_level_outline);
                    ("current_outline", outline_item)] in
  let* result := execute_interaction reply second_interaction_id token data in
  let* r := lift (py_get result "result" (JObj [])) in
  let* s := lift (py_get r "second_level_outline" (JArr [])) in
  ret {| title := outline_item; subsections := s |}.

(** The loop over [as_completed]: [completion] lists the futures, by
    submission index, in the order they finish; [futures] pairs each
    submitted item with what its worker did. *)
Fixpoint collect (futures : list (json * outcome section))
    (completion : list nat) (sections : list section) : M (list section) :=
  match completion with
  | [] => ret sections
  | i :: rest =>
      match futures !! i with
      | Some (outline_item, Ret section) =>
          collect futures rest (sections ++ [section])
      | Some (outline_item, Raise exc) =>
          let* _ := print [Lit "Error occurred while processing outline ";
                           Str outline_item; Lit ": "; StrExn exc] in
          collect futures rest sections
      | Some (outline_item, Exit code) => exit code
      | None => collect futures rest sections
      end
  end.

(** [sorted] is stable: insertion keeps an element before the later ones
    with the same key. *)
Fixpoint insert_keyed {A} (p : nat * A) (l : list (nat * A))
    : list (nat * A) :=
  match l with
  | [] => [p]
  | q :: l' =>
      if (fst p <=? fst q)%nat then p :: q :: l' else q :: insert_keyed p l'
  end.

Fixpoint sort_keyed {A} (l : list (nat * A)) : list (nat * A) :=
  match l with
  | [] => []
  | p :: l' => insert_keyed p (sort_keyed l')
  end.

(** [sorted(xs, key=f)]: every key is computed first, so a key that raises
    aborts the call. *)
Definition sorted {A} (key : A -> outcome nat) (xs : list A) : M (list A) :=
  let* keyed := mapM (fun x => let* k := lift (key x) in ret (k, x)) xs in
  ret (snd <$> sort_keyed keyed).

(** The requests of the workers are listed in submission order, before the
    lines the collecting loop prints; how they interleave in real time is
    not represented. *)
Definition call_second_interaction_parallel (replies : nat -> post_outcome)
    (completion : list nat) (second_interaction_id token : string)
    (transcript first_level_outline : json) : M (list section) :=
  let* items := lift (py_iter first_level_outline) in
  let workers :=
    imap (fun i item =>
            (item, call_second_outline (replies i) second_interaction_id token
                     transcript first_level_outline item)) items in
  let* _ := (concat ((fun w => fst (snd w)) <$> workers), Ret tt) in
  let futures := (fun w => (fst w, snd (snd w))) <$> workers in
  let* sections := collect futures completion [] in
  sorted (fun x => py_index first_level_outline (title x)) sections.

(** ** [create_word_document] *)

Definition dquote : string := String "034" EmptyString.

Definition toc_blocks : list block :=
  [ Paragraph "Table of Contents (Please update the Table of Contents in Word: Right-click -> Update Field)" true;
    TocField ("TOC \o " +:+ dquote +:+ "1-3" +:+ dquote +:+ " \h \z \u") ].

Definition content_blocks (content_item : json) : M (list block) :=
  let* point := lift (py_getitem content_item "point") in
  ret [Bullet point].

Definition subsection_blocks (subsection : json) : M (list block) :=
  let* t := lift (py_getitem subsection "title") in
  let* content := lift (py_getitem subsection "content") in
  let* items := lift (py_iter content) in
  let* bullets := mapM content_blocks items in
  ret (Heading t 2 :: concat bullets).

Definition section_blocks (s : section) : M (list block) :=
  let* subs := lift (py_iter (subsections s)) in
  let* blocks := mapM subsection_blocks subs in
  ret (Heading (title s) 1 :: concat blocks).

(** [now] is [datetime.now().strftime('%Y%m%d_%H%M%S')]; [save_reply] is the
    exception [doc.save] raises, if any. *)
Definition create_word_document (now : string) (save_reply : option exn)
    (transcript : json) (sections : list section) (base_file_name : string)
    : M string :=
  let* blocks := mapM section_blocks sections in
  let doc := toc_blocks ++ concat blocks in
  let word_file_name := base_file_name +:+ "_" +:+ now +:+ ".docx" in
  let* _ := emit (EvSave word_file_name doc) in
  match save_reply with
  | Some e => raise e
  | None =>
      let* _ := print [Lit ("Document '" +:+ word_file_name
                            +:+ "' created successfully.")] in
      ret word_file_name
  end.

(** ** [convert_to_pdf] *)

Definition soffice : string :=
  "/Applications/LibreOffice.app/Contents/MacOS/soffice".

(** [run_reply] is the exception [subprocess.run(..., check=True)] raises,
    if any: [FileNotFoundError] when the binary is absent,
    [CalledProcessError] when it exits with a non-zero status. *)
Definition convert_to_pdf (run_reply : option exn) (word_file_name : string)
    : M string :=
  let pdf_file_name := str_replace ".docx" ".pdf" word_file_name in
  let* _ := emit (EvRun [soffice; "--headless"; "--convert-to"; "pdf";
                         word_file_name]) in
  let* _ :=
    match run_reply with
    | None => print [Lit ("PDF '" +:+ pdf_file_name
                          +:+ "' created successfully.")]
    | Some e => print [Lit "Error during PDF conversion: "; StrExn e]
    end in
  ret pdf_file_name.

(** ** The command-line driver *)

Fixpoint contains_char (c : ascii) (s : string) : bool :=
  match s with
  | EmptyString => false
  | String a rest => Ascii.eqb a c || contains_char c rest
  end.

(** [os.path.basename] (POSIX): what follows the last slash. *)
Fixpoint basename (p : string) : string :=
  match p with
  | EmptyString => EmptyString
  | String c rest =>
      if contains_char "/" rest then basename rest
      else if Ascii.eqb c "/" then rest
      else p
  end.

Fixpoint all_dots (s : string) : bool :=
  match s with
  | EmptyString => true
  | String a rest => Ascii.eqb a "." && all_dots rest
  end.

(** [os.path.splitext(p)[0]] for a name without a slash: cut at the last
    dot, unless only dots come before it. *)
Fixpoint splitext_root_from (seen p : string) : string :=
  match p with
  | EmptyString => EmptyString
  | String c rest =>
      if Ascii.eqb c "." && negb (contains_char "." rest)
      then (if all_dots seen then p else EmptyString)
      else String c (splitext_root_from (String c seen) rest)
  end.

Definition splitext_root (p : string) : string :=
  splitext_root_from EmptyString p.

(** Everything outside the script that one run depends on. *)
Record world : Type := World {
  fs : string -> read_outcome;
  first_reply : post_outcome;
  second_replies : nat -> post_outcome;
  completion : list nat;
  now : string;
  save_reply : option exn;
  run_reply : option exn
}.

Definition usage : string :=
  "Usage: python script_name.py <interaction_id> <token> <file_name> <second_interaction_id>".

Definition main (w : world) (argv : list string) : M unit :=
  match argv with
  | [_; interaction_id; token; file_name; second_interaction_id] =>
      let base_file_name := splitext_root (basename file_name) in
      let* data := read_file_as_json (fs w) file_name in
      let* result :=
        execute_interaction (first_reply w) interaction_id token data in
      let* failed := lift (py_contains "error" result) in
      if (failed : bool) then
        let* msg := lift (py_getitem result "error") in
        let* _ := print [Str msg] in
        exit 1
      else
        let* r := lift (py_get result "result" (JObj [])) in
        let* first_level_outline :=
          lift (py_get r "first_level_outline" (JArr [])) in
        if negb (py_truthy first_level_outline) then
          print [Lit "No first level outline found."]
        else
          let* transcript := lift (py_getitem data "transcript") in
          let* sections :=
            call_second_interaction_parallel (second_replies w) (completion w)
              second_interaction_id token transcript first_level_outline in
          let* word_file_name :=
            create_word_document (now w) (save_reply w) transcript sections
              base_file_name in
          let* _ := convert_to_pdf (run_reply w) word_file_name in
          ret tt
  | _ =>
      let* _ := print [Lit usage] in
      exit 1
  end.

(** The status the interpreter exits with: 0 after a normal return, 1 after
    an uncaught exception, the argument of [sys.exit] otherwise. *)
Definition exit_status {A} (m : M A) : Z :=
  match snd m with
  | Ret _ => 0
  | Raise _ => 1
  | Exit code => code
  end.

(** * Vocabulary of the properties *)

(** ** Requests, payloads and replies *)

(** The request [execute_interaction] sends. *)
Definition request (interaction_id token : string) (data : json) : event :=
  EvPost
    ("https://studio-server-production.api.becomposable.com/api/v1/interactions/"
     +:+ interaction_id +:+ "/execute")
    [("Authorization", "Bearer " +:+ token); ("Accept", "application/json")]
    (JObj [("data", data); ("stream", JBool false)])
    120.

Definition transcript_payload (stored : string) : json :=
  JObj [("transcript", JStr (universal_newlines stored))].

Definition second_stage_data (transcript first_level_outline item : json)
    : json :=
  JObj [("transcript", transcript);
        ("first_level_outline", first_level_outline);
        ("current_outline", item)].

Definition is_post (ev : event) : bool :=
  match ev with EvPost _ _ _ _ => true | _ => false end.

Definition has_error_key (j : json) : Prop :=
  exists d, j = JObj d /\ is_Some (dict_lookup "error" d).

(** The four ways a call can fail, as [execute_interaction] meets them. *)
Inductive failure : post_outcome -> Prop :=
  | failure_status r :
      status_code r <> 200%Z -> failure (PostResponse r)
  | failure_decode r :
      status_code r = 200%Z -> resp_json r = None -> failure (PostResponse r)
  | failure_timeout e :
      is_Timeout e = true -> failure (PostRaise e)
  | failure_transport e :
      is_RequestException e = true -> failure (PostRaise e).

(** The second-stage replies a worker absorbs: the four failures of the
    client, and a decoded dict in which ["result"] is missing or is a dict
    without ["second_level_outline"]. *)
Inductive tolerated : post_outcome -> Prop :=
  | tolerated_failure reply :
      failure reply -> tolerated reply
  | tolerated_no_result r d :
      status_code r = 200%Z -> resp_json r = Some (JObj d) ->
      dict_lookup "result" d = None ->
      tolerated (PostResponse r)
  | tolerated_no_outline r d d' :
      status_code r = 200%Z -> resp_json r = Some (JObj d) ->
      dict_lookup "result" d = Some (JObj d') ->
      dict_lookup "second_level_outline" d' = None ->
      tolerated (PostResponse r).

(** ** The aggregator on an outline of string titles *)

Definition outline_of (titles : list string) : json := JArr (JStr <$> titles).

(** Order on entries paired with their sort key. *)
Definition key_le {A} (p q : nat * A) : Prop := (fst p <= fst q)%nat.

(** What the worker submitted for position [i] does. *)
Definition worker (replies : nat -> post_outcome) (sid token : string)
    (transcript : json) (titles : list string) (i : nat) (t : string)
    : outcome section :=
  snd (call_second_outline (replies i) sid token transcript
         (outline_of titles) (JStr t)).

(** The section of position [i], when its worker returns one. *)
Definition returned (replies : nat -> post_outcome) (sid token : string)
    (transcript : json) (titles : list string) (i : nat) : option section :=
  t ← titles !! i;
  match worker replies sid token transcript titles i t with
  | Ret s => Some s
  | _ => None
  end.

(** The exception of position [i], when its worker raises one. *)
Definition raised (replies : nat -> post_outcome) (sid token : string)
    (transcript : json) (titles : list string) (i : nat) : option exn :=
  t ← titles !! i;
  match worker replies sid token transcript titles i t with
  | Raise e => Some e
  | _ => None
  end.

(** The line logged for position [i], when its worker raises. *)
Definition logged (replies : nat -> post_outcome) (sid token : string)
    (transcript : json) (titles : list string) (i : nat) : option event :=
  t ← titles !! i;
  match worker replies sid token transcript titles i t with
  | Raise e => Some (EvPrint [Lit "Error occurred while processing outline ";
                              Str (JStr t); Lit ": "; StrExn e])
  | _ => None
  end.

(** The returned sections, by outline position. *)
Definition sections_in_outline_order (replies : nat -> post_outcome)
    (sid token : string) (transcript : json) (titles : list string)
    : list section :=
  omap (returned replies sid token transcript titles) (seq 0 (length titles)).

(** The returned sections, in the order their workers finish. *)
Definition sections_as_completed (replies : nat -> post_outcome)
    (sid token : string) (transcript : json) (titles : list string)
    (completion : list nat) : list section :=
  omap (returned replies sid token transcript titles) completion.

(** The key the final [sorted] gives a section: the position of the first
    outline item equal to its title. *)
Definition sort_key (titles : list string) (s : section) : nat :=
  default O (list_find_eq (title s) (JStr <$> titles)).

Definition key_order (titles : list string) (a b : section) : Prop :=
  (sort_key titles a <= sort_key titles b)%nat.

(** An entry is paired with its own key. *)
Definition own_key (titles : list string) (p : nat * section) : Prop :=
  fst p = sort_key titles (snd p).

(** Each submitted item with what its worker does. *)
Definition futures_of (replies : nat -> post_outcome) (sid token : string)
    (transcript : json) (titles : list string)
    : list (json * outcome section) :=
  imap (fun i t => (JStr t, worker replies sid token transcript titles i t))
    titles.

(** The requests of one aggregation, in submission order. *)
Definition requests_sent (sid token : string) (transcript : json)
    (titles : list string) : list event :=
  (fun t => request sid token
              (second_stage_data transcript (outline_of titles) (JStr t)))
  <$> titles.

(** The collected sections with their keys, as handed to the sort. *)
Definition keyed_as_completed (replies : nat -> post_outcome)
    (sid token : string) (transcript : json) (titles : list string)
    (completion : list nat) : list (nat * section) :=
  (fun s => (sort_key titles s, s))
  <$> sections_as_completed replies sid token transcript titles completion.

(** The section of position [i] paired with [i]. *)
Definition keyed_returned (replies : nat -> post_outcome) (sid token : string)
    (transcript : json) (titles : list string) (i : nat)
    : option (nat * section) :=
  (fun s => (i, s)) <$> returned replies sid token transcript titles i.

(** ** Sample inputs *)

Definition crlf_text : string :=
  String "a" (String CR (String LF (String "b" EmptyString))).

Definition unicode_text : string :=
  String "c" (String "195" (String "169" (String LF (String "!" EmptyString)))).

Definition sample_world (first : post_outcome) : world :=
  {| fs := fun name =>
             if String.eqb name "talk.txt" then ReadText "Hello"
             else ReadRaise (Exn FileNotFoundError name);
     first_reply := first;
     second_replies := fun _ => PostRaise (Exn RequestException "refused");
     completion := [];
     now := "20240101_120000";
     save_reply := None;
     run_reply := None |}.

Definition sample_argv : list string :=
  ["generate.py"; "outline-1"; "secret"; "talk.txt"; "outline-2"].

Definition empty_outline_body : json :=
  JObj [("result", JObj [("first_level_outline", JArr [])])].

Definition error_key_body : json :=
  JObj [("error", JStr "quota exceeded"); ("result", JObj [])].

Definition titled (words : list string) : json :=
  JArr ((fun w => JObj [("title", JStr w); ("content", JArr [])]) <$> words).

Definition outline_body (words : list string) : post_outcome :=
  PostResponse
    (Response 200 "{...}"
       (Some (JObj [("result",
                     JObj [("second_level_outline", titled words)])]))).

(** Two items with the same title, answered differently. *)
Definition duplicate_titles : list string := ["Q&A"; "Q&A"].

Definition duplicate_replies (i : nat) : post_outcome :=
  match i with
  | O => outline_body ["first answer"]
  | _ => outline_body ["second answer"]
  end.

(** Three distinct items; the second worker raises on a body that is not a
    dict, the third is refused by the network. *)
Definition sample_titles : list string := ["Intro"; "Method"; "Q&A"].

Definition sample_replies (i : nat) : post_outcome :=
  match i with
  | O => outline_body ["Welcome"]
  | 1%nat => PostResponse (Response 200 "[]" (Some (JArr [])))
  | _ => PostRaise (Exn RequestException "connection refused")
  end.

(** The document name [main] builds for the transcript [notes.docx.txt]. *)
Definition dotted_word_file_name : string :=
  splitext_root (basename "in/notes.docx.txt") +:+ "_" +:+ "20240101_120000"
  +:+ ".docx".

(** ** Shapes of a second-stage reply *)

(** The replies from which a worker returns, with the subsections it
    keeps: nothing for a tolerated reply, the [second_level_outline] of the
    decoded body otherwise. *)
Inductive well_shaped : post_outcome -> json -> Prop :=
  | well_shaped_tolerated reply :
      tolerated reply -> well_shaped reply (JArr [])
  | well_shaped_outline r d d' subs :
      status_code r = 200%Z -> resp_json r = Some (JObj d) ->
      dict_lookup "result" d = Some (JObj d') ->
      dict_lookup "second_level_outline" d' = Some subs ->
      well_shaped (PostResponse r) subs.

(** The replies on which a worker raises: an exception from outside
    [requests.exceptions], a decoded body that is not a dict, a ["result"]
    that is not a dict. *)
Inductive ill_shaped : post_outcome -> Prop :=
  | ill_shaped_exception e :
      is_RequestException e = false -> ill_shaped (PostRaise e)
  | ill_shaped_body r body :
      status_code r = 200%Z -> resp_json r = Some body ->
      (forall d, body <> JObj d) ->
      ill_shaped (PostResponse r)
  | ill_shaped_result r d v :
      status_code r = 200%Z -> resp_json r = Some (JObj d) ->
      dict_lookup "result" d = Some v -> (forall d', v <> JObj d') ->
      ill_shaped (PostResponse r).

(** ** The document of well-formed sections *)

(** A subsection as the document builder reads it: a title and the points
    of its content. *)
Record subsection : Type :=
  MkSubsection { sub_title : string; sub_points : list string }.

(** [j] is a dict whose ["point"] is the string [p]. *)
Definition is_point (j : json) (p : string) : Prop :=
  exists d, j = JObj d /\ dict_lookup "point" d = Some (JStr p).

(** [j] is a dict whose ["title"] and ["content"] give [s]. *)
Definition is_subsection (j : json) (s : subsection) : Prop :=
  exists d items,
    j = JObj d
    /\ dict_lookup "title" d = Some (JStr (sub_title s))
    /\ dict_lookup "content" d = Some (JArr items)
    /\ Forall2 is_point items (sub_points s).

Definition is_subsections (j : json) (subs : list subsection) : Prop :=
  exists items, j = JArr items /\ Forall2 is_subsection items subs.

(** A section and the data it holds. *)
Definition is_section (s : section) (r : string * list subsection) : Prop :=
  title s = JStr (fst r) /\ is_subsections (subsections s) (snd r).

Definition render_subsection (s : subsection) : list block :=
  Heading (JStr (sub_title s)) 2 :: ((fun p => Bullet (JStr p)) <$> sub_points s).

Definition render_section (r : string * list subsection) : list block :=
  Heading (JStr (fst r)) 1 :: concat (render_subsection <$> snd r).

Definition render (results : list (string * list subsection)) : list block :=
  toc_blocks ++ concat (render_section <$> results).

(** Headings and bullets of the data: one per section, subsection, point. *)
Definition subsection_size (s : subsection) : nat := S (length (sub_points s)).

Definition section_size (r : string * list subsection) : nat :=
  S (sum_list (subsection_size <$> snd r)).

(** A computation that touches nothing outside: no event, no exit. *)
Definition quiet {A} (m : M A) : Prop :=
  fst m = [] /\ forall code, snd m <> Exit code.

(** ** Occurrences in file names *)

(** [sub in s] on strings. *)
Fixpoint occurs (sub s : string) : bool :=
  String.prefix sub s
  || match s with
     | EmptyString => false
     | String _ rest => occurs sub rest
     end.

Definition is_run (ev : event) : bool :=
  match ev with EvRun _ => true | _ => false end.

Definition word_name (base_file_name now : string) : string :=
  base_file_name +:+ "_" +:+ now +:+ ".docx".

(** A run on two titles: the first call answers with one subsection, the
    second is refused and finishes first. *)
Definition sample_results : list (string * list subsection) :=
  [("Intro", [MkSubsection "Welcome" []]); ("Q&A", [])].

Definition sample_run_world : world :=
  {| fs := fun _ => ReadText "Hello";
     first_reply :=
       PostResponse
         (Response 200 "{...}"
            (Some (JObj [("result",
                          JObj [("first_level_outline",
                                 outline_of (fst <$> sample_results))])])));
     second_replies := fun i =>
       match i with
       | O => outline_body ["Welcome"]
       | _ => PostRaise (Exn RequestException "connection refused")
       end;
     completion := [1; 0]%nat;
     now := "20240101_120000";
     save_reply := None;
     run_reply := Some (Exn FileNotFoundError "soffice") |}.

(** ** Ways a computation can end *)

Definition no_exit {A} (m : M A) : Prop := forall code, snd m <> Exit code.

Definition exits_with_1 {A} (m : M A) : Prop :=
  forall code, snd m = Exit code -> code = 1%Z.

(** * Properties *)

(** ** The built-ins on sample inputs *)

Example str_replace_report :
  str_replace ".docx" ".pdf" "report_20240101_120000.docx"
  = "report_20240101_120000.pdf".
Proof. reflexivity. Qed.

Example utf8_chars_cafe :
  utf8_chars (String "c" (String "195" (String "169" "!")))
  = [ "c"; String "195" (String "169" EmptyString); "!" ].
Proof. reflexivity. Qed.

Example splitext_root_plain : splitext_root "talk.v2.txt" = "talk.v2".
Proof. reflexivity. Qed.
Example splitext_root_hidden : splitext_root ".bashrc" = ".bashrc".
Proof. reflexivity. Qed.
Example splitext_root_none : splitext_root "README" = "README".
Proof. reflexivity. Qed.
Example basename_nested : basename "/tmp/in/talk.txt" = "talk.txt".
Proof. reflexivity. Qed.

(** ** The interaction client *)

Lemma error_value_has_error_key msg : has_error_key (error_value msg).
Proof. exists [("error", JStr msg)]. split; [reflexivity | by eexists]. Qed.

Lemma execute_interaction_trace reply interaction_id token data :
  exists url headers payload,
    fst (execute_interaction reply interaction_id token data)
    = [EvPost url headers payload 120].
Proof.
  do 3 eexists. unfold execute_interaction.
  destruct reply as [r | e]; simpl.
  - destruct (Z.eqb (status_code r) 200); [destruct (resp_json r) |];
      reflexivity.
  - destruct (is_Timeout e); [reflexivity |].
    destruct (is_RequestException e); reflexivity.
Qed.



(** ** The transcript loader *)

Lemma universal_newlines_no_cr (s : string) :
  contains_char CR s = false -> universal_newlines s = s.
Proof.
  induction s as [| c rest IH]; [reflexivity |].
  simpl. intros H. apply orb_false_elim in H as [Hc Hrest].
  rewrite Hc. f_equal. by apply IH.
Qed.

(** The translation leaves no carriage return behind.  The recursion skips
    two characters on [\r\n], hence the induction on a length bound. *)
Lemma universal_newlines_cr_free_bounded (n : nat) (s : string) :
  (String.length s <= n)%nat ->
  contains_char CR (universal_newlines s) = false.
Proof.
  revert s. induction n as [| n IH]; intros s Hlen.
  - destruct s; [reflexivity | simpl in Hlen; lia].
  - destruct s as [| c rest]; [reflexivity |].
    simpl in Hlen. simpl.
    destruct (Ascii.eqb c CR) eqn:Hc.
    + simpl. destruct rest as [| c' rest']; [reflexivity |].
      simpl in Hlen.
      destruct (Ascii.eqb c' LF); apply IH; simpl; lia.
    + simpl. rewrite Hc. simpl. apply IH. lia.
Qed.

Lemma universal_newlines_cr_free (s : string) :
  contains_char CR (universal_newlines s) = false.
Proof. by apply (universal_newlines_cr_free_bounded (String.length s)). Qed.

(** C3, as stated, fails on a file with a Windows line ending: the stored
    text [a\r\nb] is handed over as [a\nb]. *)
Lemma read_file_as_json_crlf_not_preserved :
  ~ (forall (fs : string -> read_outcome) (filename T : string),
       fs filename = ReadText T ->
       snd (read_file_as_json fs filename)
       = Ret (JObj [("transcript", JStr T)])).
Proof.
  intros H.
  specialize (H (fun _ => ReadText crlf_text) "talk.txt" crlf_text eq_refl).
  vm_compute in H. discriminate H.
Qed.

(** C3, amended. Reading a transcript file whose stored text is [T] prints
    nothing and yields exactly [{"transcript": T'}], where [T'] is [T] with
    every [\r\n] and every other [\r] turned into [\n]: [T'] holds no
    carriage return, and [T'] is [T] itself, byte for byte (line feeds and
    non-ASCII text included), when [T] holds no carriage return. *)
Theorem read_file_as_json_payload
    (fs : string -> read_outcome) (filename T : string) :
  fs filename = ReadText T ->
  exists T',
    read_file_as_json fs filename = ([], Ret (JObj [("transcript", JStr T')]))
    /\ T' = universal_newlines T
    /\ contains_char CR T' = false
    /\ (contains_char CR T = false -> T' = T).
Proof.
  intros Hfile. exists (universal_newlines T).
  unfold read_file_as_json. rewrite Hfile.
  repeat split.
  - apply universal_newlines_cr_free.
  - apply universal_newlines_no_cr.
Qed.

Lemma read_file_as_json_payload_witness :
  exists T',
    read_file_as_json (fun _ => ReadText unicode_text) "talk.txt"
    = ([], Ret (JObj [("transcript", JStr T')]))
    /\ T' = universal_newlines unicode_text
    /\ contains_char CR T' = false
    /\ (contains_char CR unicode_text = false -> T' = unicode_text).
Proof.
  apply (read_file_as_json_payload (fun _ => ReadText unicode_text)
           "talk.txt" unicode_text).
  reflexivity.
Defined.

(** ** The command-line driver *)

Lemma py_contains_dict k d :
  py_contains k (JObj d)
  = Ret (match dict_lookup k d with Some _ => true | None => false end).
Proof. simpl. by destruct (dict_lookup k d). Qed.

(** The run up to the test of the first-stage result. *)
Lemma main_first_stage (w : world) (prog interaction_id token file_name
    second_interaction_id stored : string) (result : json) :
  fs w file_name = ReadText stored ->
  execute_interaction (first_reply w) interaction_id token
    (transcript_payload stored)
  = ([request interaction_id token (transcript_payload stored)], Ret result) ->
  main w [prog; interaction_id; token; file_name; second_interaction_id]
  = let* data := read_file_as_json (fs w) file_name in
    let* _ := emit (request interaction_id token data) in
    let* failed := lift (py_contains "error" result) in
    if (failed : bool) then
      let* msg := lift (py_getitem result "error") in
      let* _ := print [Str msg] in
      exit 1
    else
      let* r := lift (py_get result "result" (JObj [])) in
      let* first_level_outline :=
        lift (py_get r "first_level_outline" (JArr [])) in
      if negb (py_truthy first_level_outline) then
        print [Lit "No first level outline found."]
      else
        let* transcript := lift (py_getitem data "transcript") in
        let* sections :=
          call_second_interaction_parallel (second_replies w) (completion w)
            second_interaction_id token transcript first_level_outline in
        let* word_file_name :=
          create_word_document (now w) (save_reply w) transcript sections
            (splitext_root (basename file_name)) in
        let* _ := convert_to_pdf (run_reply w) word_file_name in
        ret tt.
Proof.
  intros Hfs Hexec. unfold main, read_file_as_json. rewrite Hfs.
  fold (transcript_payload stored).
  cbn [bind ret]. rewrite Hexec. reflexivity.
Qed.

(** C4. When the first-stage call answers with a status other than 200, the
    run sends that one request, prints the error message and exits with
    status 1: no second-stage request, no document, no conversion. *)
Theorem main_first_stage_error_exits
    (w : world) (prog interaction_id token file_name second_interaction_id
     stored : string) (r : response) :
  fs w file_name = ReadText stored ->
  first_reply w = PostResponse r ->
  status_code r <> 200%Z ->
  let run :=
    main w [prog; interaction_id; token; file_name; second_interaction_id] in
  run = ([request interaction_id token (transcript_payload stored);
          EvPrint [Str (JStr ("Error: " +:+ pretty (status_code r)
                              +:+ " - " +:+ text r))]],
         Exit 1)
  /\ exit_status run = 1%Z.
Proof.
  intros Hfs Hreply Hstatus run.
  assert (Hrun : run
    = ([request interaction_id token (transcript_payload stored);
        EvPrint [Str (JStr ("Error: " +:+ pretty (status_code r)
                            +:+ " - " +:+ text r))]],
       Exit 1)).
  { subst run.
    rewrite (main_first_stage w prog interaction_id token file_name
               second_interaction_id stored
               (error_value ("Error: " +:+ pretty (status_code r)
                             +:+ " - " +:+ text r)) Hfs).
    - unfold read_file_as_json. rewrite Hfs. reflexivity.
    - unfold execute_interaction. rewrite Hreply.
      apply Z.eqb_neq in Hstatus. rewrite Hstatus. reflexivity. }
  split; [exact Hrun | rewrite Hrun; reflexivity].
Qed.

Lemma main_first_stage_error_exits_witness :
  exit_status
    (main (sample_world (PostResponse (Response 500 "boom" None))) sample_argv)
  = 1%Z.
Proof.
  apply (main_first_stage_error_exits
           (sample_world (PostResponse (Response 500 "boom" None)))
           "generate.py" "outline-1" "secret" "talk.txt" "outline-2" "Hello"
           (Response 500 "boom" None)).
  - reflexivity.
  - reflexivity.
  - simpl. discriminate.
Defined.

(** C5. When the first-stage call succeeds (a decoded 200 body without an
    ["error"] key) and the first-level outline read from it has no item
    (an empty list, given or taken by default), the run sends that one
    request, prints the "no outline" line and returns normally (status 0):
    no second-stage request, no document, no conversion. *)
Theorem main_empty_outline_stops
    (w : world) (prog interaction_id token file_name second_interaction_id
     stored : string) (r : response) (d : list (string * json))
    (result : json) :
  fs w file_name = ReadText stored ->
  first_reply w = PostResponse r ->
  status_code r = 200%Z ->
  resp_json r = Some (JObj d) ->
  dict_lookup "error" d = None ->
  py_get (JObj d) "result" (JObj []) = Ret result ->
  py_get result "first_level_outline" (JArr []) = Ret (JArr []) ->
  let run :=
    main w [prog; interaction_id; token; file_name; second_interaction_id] in
  run = ([request interaction_id token (transcript_payload stored);
          EvPrint [Lit "No first level outline found."]],
         Ret tt)
  /\ exit_status run = 0%Z.
Proof.
  intros Hfs Hreply Hstatus Hjson Herr Hres Hout run.
  assert (Hrun : run
    = ([request interaction_id token (transcript_payload stored);
        EvPrint [Lit "No first level outline found."]], Ret tt)).
  { subst run.
    rewrite (main_first_stage w prog interaction_id token file_name
               second_interaction_id stored (JObj d) Hfs).
    - unfold read_file_as_json. rewrite Hfs.
      rewrite py_contains_dict, Herr, Hres. cbn [bind ret lift emit app].
      rewrite Hout. reflexivity.
    - unfold execute_interaction. rewrite Hreply, Hstatus, Hjson.
      reflexivity. }
  split; [exact Hrun | rewrite Hrun; reflexivity].
Qed.

Lemma main_empty_outline_stops_witness :
  exit_status
    (main (sample_world
             (PostResponse (Response 200 "{...}" (Some empty_outline_body))))
       sample_argv)
  = 0%Z.
Proof.
  apply (main_empty_outline_stops
           (sample_world
              (PostResponse (Response 200 "{...}" (Some empty_outline_body))))
           "generate.py" "outline-1" "secret" "talk.txt" "outline-2" "Hello"
           (Response 200 "{...}" (Some empty_outline_body))
           [("result", JObj [("first_level_outline", JArr [])])]
           (JObj [("first_level_outline", JArr [])]));
    reflexivity.
Defined.

Lemma main_non_200_run
    (w : world) (prog interaction_id token file_name second_interaction_id
     stored : string) (r : response) :
  fs w file_name = ReadText stored ->
  first_reply w = PostResponse r ->
  status_code r <> 200%Z ->
  main w [prog; interaction_id; token; file_name; second_interaction_id]
  = ([request interaction_id token (transcript_payload stored);
      EvPrint [Str (JStr ("Error: " +:+ pretty (status_code r)
                          +:+ " - " +:+ text r))]],
     Exit 1).
Proof.
  intros Hfs Hreply Hstatus.
  rewrite (main_first_stage w prog interaction_id token file_name
             second_interaction_id stored
             (error_value ("Error: " +:+ pretty (status_code r)
                           +:+ " - " +:+ text r)) Hfs).
  - unfold read_file_as_json. rewrite Hfs. reflexivity.
  - unfold execute_interaction. rewrite Hreply.
    apply Z.eqb_neq in Hstatus. rewrite Hstatus. reflexivity.
Qed.

(** C10. Whenever the decoded first-stage body is a dict with a top-level
    ["error"] key, the run exits with status 1 after the one request and
    one printed line, whatever the HTTP status; with status 200 the line is
    the value found under that key. *)
Theorem main_error_key_is_fatal
    (w : world) (prog interaction_id token file_name second_interaction_id
     stored : string) (r : response) (d : list (string * json)) (v : json) :
  fs w file_name = ReadText stored ->
  first_reply w = PostResponse r ->
  resp_json r = Some (JObj d) ->
  dict_lookup "error" d = Some v ->
  let run :=
    main w [prog; interaction_id; token; file_name; second_interaction_id] in
  exists line,
    run = ([request interaction_id token (transcript_payload stored);
            EvPrint line], Exit 1)
    /\ exit_status run = 1%Z
    /\ (status_code r = 200%Z -> line = [Str v]).
Proof.
  intros Hfs Hreply Hjson Herr run.
  destruct (Z.eqb (status_code r) 200) eqn:Hstatus.
  - exists [Str v].
    assert (Hrun : run
      = ([request interaction_id token (transcript_payload stored);
          EvPrint [Str v]], Exit 1)).
    { subst run.
      rewrite (main_first_stage w prog interaction_id token file_name
                 second_interaction_id stored (JObj d) Hfs).
      - unfold read_file_as_json. rewrite Hfs.
        rewrite py_contains_dict, Herr. cbn [py_getitem]. rewrite Herr.
        reflexivity.
      - unfold execute_interaction. rewrite Hreply, Hstatus, Hjson.
        reflexivity. }
    split; [exact Hrun | split; [rewrite Hrun; reflexivity | done]].
  - apply Z.eqb_neq in Hstatus.
    pose proof (main_non_200_run w prog interaction_id token file_name
                  second_interaction_id stored r Hfs Hreply Hstatus) as Hrun.
    eexists. split; [exact Hrun |].
    split; [subst run; by rewrite Hrun | done].
Qed.

Lemma main_error_key_is_fatal_witness :
  exists line,
    main (sample_world
            (PostResponse (Response 200 "{...}" (Some error_key_body))))
      sample_argv
    = ([request "outline-1" "secret" (transcript_payload "Hello");
        EvPrint line], Exit 1)
    /\ exit_status
         (main (sample_world
                  (PostResponse (Response 200 "{...}" (Some error_key_body))))
            sample_argv) = 1%Z
    /\ (200%Z = 200%Z -> line = [Str (JStr "quota exceeded")]).
Proof.
  apply (main_error_key_is_fatal
           (sample_world
              (PostResponse (Response 200 "{...}" (Some error_key_body))))
           "generate.py" "outline-1" "secret" "talk.txt" "outline-2" "Hello"
           (Response 200 "{...}" (Some error_key_body))
           [("error", JStr "quota exceeded"); ("result", JObj [])]
           (JStr "quota exceeded"));
    reflexivity.
Defined.

(** ** The stable sort behind [sorted] *)

Section StableSort.
Context {A : Type}.
Implicit Types (p q : nat * A) (l : list (nat * A)) (k : nat).

Lemma insert_keyed_perm p l : insert_keyed p l ≡ₚ p :: l.
Proof.
  induction l as [| q l IH]; simpl; [done |].
  destruct (fst p <=? fst q)%nat; [done |].
  rewrite IH. apply Permutation_swap.
Qed.

Lemma sort_keyed_perm l : sort_keyed l ≡ₚ l.
Proof.
  induction l as [| p l IH]; simpl; [done |].
  by rewrite insert_keyed_perm, IH.
Qed.

Lemma insert_keyed_sorted p l :
  Sorted key_le l -> Sorted key_le (insert_keyed p l).
Proof.
  induction 1 as [| q l Hl IH Hq]; simpl.
  - repeat constructor.
  - destruct (fst p <=? fst q)%nat eqn:Hpq.
    + apply Nat.leb_le in Hpq. repeat constructor; done.
    + apply Nat.leb_gt in Hpq. constructor; [exact IH |].
      destruct Hq as [| r l Hqr]; simpl.
      * constructor. unfold key_le. lia.
      * destruct (fst p <=? fst r)%nat; constructor;
          unfold key_le in *; lia.
Qed.

Lemma sort_keyed_sorted l : Sorted key_le (sort_keyed l).
Proof.
  induction l as [| p l IH]; simpl;
    [constructor | by apply insert_keyed_sorted].
Qed.

(** Stability: among the entries of one key, insertion keeps the new
    entry in front, so sorting keeps their order. *)
Lemma insert_keyed_filter k p l :
  filter (fun q => fst q = k) (insert_keyed p l)
  = filter (fun q => fst q = k) (p :: l).
Proof.
  induction l as [| q l IH]; simpl; [done |].
  destruct (fst p <=? fst q)%nat eqn:Hpq; [done |].
  apply Nat.leb_gt in Hpq.
  rewrite filter_cons, IH, !filter_cons.
  repeat case_decide; try done; lia.
Qed.

Lemma sort_keyed_filter k l :
  filter (fun q => fst q = k) (sort_keyed l)
  = filter (fun q => fst q = k) l.
Proof.
  induction l as [| p l IH]; simpl; [done |].
  by rewrite insert_keyed_filter, !filter_cons, IH.
Qed.
End StableSort.

#[local] Instance key_le_trans {A} : Transitive (@key_le A).
Proof. intros p q r. unfold key_le. lia. Qed.

(** ** The parallel aggregator on an outline of string titles *)

Lemma execute_interaction_shape reply interaction_id token data :
  (exists j, execute_interaction reply interaction_id token data
             = ([request interaction_id token data], Ret j))
  \/ (exists e, execute_interaction reply interaction_id token data
                = ([request interaction_id token data], Raise e)).
Proof.
  unfold execute_interaction, request.
  destruct reply as [r | e]; simpl.
  - destruct (Z.eqb (status_code r) 200); [destruct (resp_json r) |];
      left; eexists; reflexivity.
  - destruct (is_Timeout e); [left; eexists; reflexivity |].
    destruct (is_RequestException e);
      [left | right]; eexists; reflexivity.
Qed.

Lemma py_get_shape j k dflt :
  (exists v, py_get j k dflt = Ret v) \/ (exists e, py_get j k dflt = Raise e).
Proof. destruct j; simpl; eauto. Qed.

(** A worker sends one request and then either returns a section titled
    with its item or raises; it never exits. *)
Lemma call_second_outline_shape reply sid token transcript outline item :
  exists o,
    call_second_outline reply sid token transcript outline item
    = ([request sid token (second_stage_data transcript outline item)], o)
    /\ ((exists subs, o = Ret {| title := item; subsections := subs |})
        \/ (exists e, o = Raise e)).
Proof.
  unfold call_second_outline. fold (second_stage_data transcript outline item).
  destruct (execute_interaction_shape reply sid token
              (second_stage_data transcript outline item))
    as [[j ->] | [e ->]]; [| by eexists; split; [reflexivity | eauto]].
  destruct (py_get_shape j "result" (JObj [])) as [[r Hr] | [e Hr]];
    cbn [bind]; rewrite Hr; cbn [bind lift];
    [| by eexists; split; [reflexivity | eauto]].
  destruct (py_get_shape r "second_level_outline" (JArr []))
    as [[s Hs] | [e Hs]]; rewrite Hs;
    eexists; (split; [reflexivity | eauto]).
Qed.

Section Aggregator.
Variables (replies : nat -> post_outcome) (sid token : string).
Variables (transcript : json) (titles : list string).

Local Notation worker := (worker replies sid token transcript titles).
Local Notation returned := (returned replies sid token transcript titles).
Local Notation raised := (raised replies sid token transcript titles).
Local Notation logged := (logged replies sid token transcript titles).
Local Notation sections_in_outline_order :=
  (sections_in_outline_order replies sid token transcript titles).
Local Notation sections_as_completed :=
  (sections_as_completed replies sid token transcript titles).
Local Notation sort_key := (sort_key titles).
Local Notation futures_of := (futures_of replies sid token transcript titles).
Local Notation requests_sent := (requests_sent sid token transcript titles).
Local Notation keyed_as_completed :=
  (keyed_as_completed replies sid token transcript titles).
Local Notation keyed_returned :=
  (keyed_returned replies sid token transcript titles).

Lemma worker_shape i t :
  (exists subs, worker i t = Ret {| title := JStr t; subsections := subs |})
  \/ (exists e, worker i t = Raise e).
Proof.
  unfold worker.
  destruct (call_second_outline_shape (replies i) sid token transcript
              (outline_of titles) (JStr t)) as (o & -> & Ho).
  exact Ho.
Qed.

Lemma futures_of_lookup i :
  futures_of !! i = (fun t => (JStr t, worker i t)) <$> titles !! i.
Proof. unfold futures_of. apply list_lookup_imap. Qed.

Lemma returned_title i s :
  returned i = Some s -> exists t, titles !! i = Some t /\ title s = JStr t.
Proof.
  unfold returned. destruct (titles !! i) as [t |]; [| done]. simpl.
  destruct (worker_shape i t) as [[subs ->] | [e ->]]; [| done].
  intros [= <-]. eauto.
Qed.

(** The collecting loop: one logged line per failed worker, the returned
    sections appended in completion order. *)
Lemma collect_futures completion acc :
  collect futures_of completion acc
  = (omap logged completion, Ret (acc ++ omap returned completion)).
Proof.
  revert acc. induction completion as [| i rest IH]; intros acc.
  - simpl. by rewrite app_nil_r.
  - cbn [collect omap list_omap]. rewrite futures_of_lookup.
    unfold returned at 1, logged at 1.
    destruct (titles !! i) as [t |]; cbn [fmap option_fmap option_map
      mbind option_bind]; [| apply IH].
    destruct (worker_shape i t) as [[subs ->] | [e ->]].
    + rewrite IH. by rewrite <- app_assoc.
    + cbn [bind print emit]. rewrite IH. reflexivity.
Qed.

(** [index] on string titles. *)
Lemma list_find_eq_first (l : list string) (t : string) (k : nat) :
  list_find_eq (JStr t) (JStr <$> l) = Some k <->
  l !! k = Some t /\ forall j, (j < k)%nat -> l !! j <> Some t.
Proof.
  revert k. induction l as [| x l IH]; intros k.
  - split; [done | by intros [? _]].
  - rewrite fmap_cons. cbn [list_find_eq py_eqb].
    destruct (String.eqb_spec x t) as [-> | Hne].
    + split.
      * intros [= <-]. split; [done | intros j Hj; lia].
      * intros [Hk Hfirst]. destruct k as [| k]; [done |].
        by destruct (Hfirst O ltac:(lia)).
    + destruct k as [| k].
      * split; [by destruct (list_find_eq _ _) | intros [[= ?] _]; done].
      * split.
        -- destruct (list_find_eq (JStr t) (JStr <$> l)) as [k' |];
             simpl; [| done].
           intros [= <-]. destruct (proj1 (IH k') eq_refl) as [Hk Hfirst].
           split; [exact Hk |].
           intros [| j] Hj; simpl; [by intros [= ?] | apply Hfirst; lia].
        -- intros [Hk Hfirst]. simpl in Hk.
           assert (list_find_eq (JStr t) (JStr <$> l) = Some k) as ->; [| done].
           apply IH. split; [done |].
           intros j Hj. apply (Hfirst (S j)). lia.
Qed.

Lemma list_find_eq_member (l : list string) (t : string) :
  t ∈ l -> is_Some (list_find_eq (JStr t) (JStr <$> l)).
Proof.
  induction 1 as [x l | x y l Hin IH];
    rewrite fmap_cons; cbn [list_find_eq py_eqb].
  - rewrite String.eqb_refl. by eexists.
  - destruct (String.eqb y x); [by eexists |].
    destruct IH as [k ->]. by eexists.
Qed.

Lemma list_find_eq_NoDup (l : list string) (t : string) (i : nat) :
  NoDup l -> l !! i = Some t ->
  list_find_eq (JStr t) (JStr <$> l) = Some i.
Proof.
  intros Hnd Hi. apply list_find_eq_first. split; [done |].
  intros j Hj Hjt.
  assert (j = i) by (eapply NoDup_lookup; eauto). lia.
Qed.

(** The key of a returned section is found, and is the first position of
    its title. *)
Lemma sort_key_returned i s :
  returned i = Some s ->
  py_index (outline_of titles) (title s) = Ret (sort_key s)
  /\ (exists t, titles !! i = Some t /\ titles !! sort_key s = Some t)
  /\ (sort_key s <= i)%nat.
Proof.
  intros Hs. destruct (returned_title i s Hs) as (t & Ht & Htitle).
  unfold sort_key, py_index, outline_of. rewrite Htitle.
  destruct (list_find_eq_member titles t) as [k Hk];
    [by eapply list_elem_of_lookup_2 |].
  rewrite Hk. simpl. apply list_find_eq_first in Hk as [Hkt Hfirst].
  split; [done |]. split; [by eauto |].
  destruct (decide (k <= i)%nat); [done |].
  destruct (Hfirst i); [lia | done].
Qed.

Lemma sort_key_NoDup i s :
  NoDup titles -> returned i = Some s -> sort_key s = i.
Proof.
  intros Hnd Hs. destruct (returned_title i s Hs) as (t & Ht & Htitle).
  unfold sort_key. rewrite Htitle.
  by rewrite (list_find_eq_NoDup titles t i Hnd Ht).
Qed.

Lemma mapM_keys (xs : list section) :
  (forall x, x ∈ xs ->
     py_index (outline_of titles) (title x) = Ret (sort_key x)) ->
  mapM (fun x => let* k := lift (py_index (outline_of titles) (title x)) in
                 ret (k, x)) xs
  = ([], Ret ((fun x => (sort_key x, x)) <$> xs)).
Proof.
  set (keyed := fun x => bind _ _).
  induction xs as [| x xs IH]; intros Hkeys; [reflexivity |].
  cbn [mapM]. rewrite IH by (intros y Hy; apply Hkeys; by right).
  unfold keyed. rewrite (Hkeys x) by left. reflexivity.
Qed.

Lemma workers_futures :
  (fun w : json * (list event * outcome section) => (fst w, snd (snd w)))
  <$> imap (fun i item =>
              (item, call_second_outline (replies i) sid token transcript
                       (outline_of titles) item)) (JStr <$> titles)
  = futures_of.
Proof.
  rewrite imap_fmap, fmap_imap. unfold futures_of. by apply imap_ext.
Qed.

Lemma workers_requests :
  concat ((fun w : json * (list event * outcome section) => fst (snd w))
          <$> imap (fun i item =>
                      (item, call_second_outline (replies i) sid token
                               transcript (outline_of titles) item))
                (JStr <$> titles))
  = requests_sent.
Proof.
  rewrite imap_fmap, fmap_imap. unfold requests_sent.
  generalize (outline_of titles) as outline. intros outline.
  generalize replies as rs.
  induction titles as [| t l IH]; intros rs; [reflexivity |].
  rewrite imap_cons, fmap_cons. cbn [concat].
  rewrite <- (IH (fun i => rs (S i))). f_equal.
  cbn [compose fst snd].
  destruct (call_second_outline_shape (rs O) sid token transcript
              outline (JStr t)) as (o & -> & _).
  reflexivity.
Qed.

(** The aggregator, for any list of completed positions: it returns, the
    trace holds one request per item and one line per failed worker, and
    the result is the stable sort of the collected sections. *)
Lemma call_second_interaction_parallel_eq (completion : list nat) :
  call_second_interaction_parallel replies completion sid token transcript
    (outline_of titles)
  = (requests_sent ++ omap logged completion,
     Ret (snd <$> sort_keyed (keyed_as_completed completion))).
Proof.
  unfold call_second_interaction_parallel.
  change (py_iter (outline_of titles)) with (Ret (JStr <$> titles)).
  cbn [lift bind app].
  rewrite workers_futures, workers_requests, collect_futures.
  cbn [bind app]. fold (sections_as_completed completion).
  unfold sorted. rewrite mapM_keys.
  - cbn [bind ret]. fold (keyed_as_completed completion).
    by rewrite !app_nil_r.
  - intros x Hx. apply list_elem_of_omap in Hx as (i & _ & Hi).
    by apply (sort_key_returned i).
Qed.

Lemma snd_keyed_as_completed completion :
  snd <$> keyed_as_completed completion = sections_as_completed completion.
Proof.
  unfold keyed_as_completed. rewrite <- list_fmap_compose.
  apply list_fmap_id.
Qed.

Lemma sorted_sections_perm completion :
  snd <$> sort_keyed (keyed_as_completed completion)
  ≡ₚ sections_as_completed completion.
Proof. by rewrite sort_keyed_perm, snd_keyed_as_completed. Qed.

(** A submitted worker either returns or raises. *)
Lemma returned_or_raised i :
  (i < length titles)%nat ->
  (is_Some (returned i) /\ raised i = None /\ logged i = None)
  \/ (returned i = None /\ is_Some (raised i) /\ is_Some (logged i)).
Proof.
  intros Hi. apply lookup_lt_is_Some_2 in Hi as [t Ht].
  unfold returned, raised, logged. rewrite Ht. simpl.
  destruct (worker_shape i t) as [[subs ->] | [e ->]]; [left | right];
    repeat split; by eexists.
Qed.

Lemma returned_raised_count (l : list nat) :
  Forall (fun i => (i < length titles)%nat) l ->
  (length (omap returned l) + length (omap raised l))%nat = length l.
Proof.
  induction 1 as [| i l Hi _ IH]; [reflexivity |].
  cbn [omap list_omap].
  destruct (returned_or_raised i Hi)
    as [([s ->] & -> & _) | (-> & [e ->] & _)]; simpl; lia.
Qed.

Lemma keyed_as_completed_NoDup completion :
  NoDup titles ->
  keyed_as_completed completion = omap keyed_returned completion.
Proof.
  intros Hnd. unfold keyed_as_completed, sections_as_completed.
  induction completion as [| i rest IH]; [reflexivity |].
  cbn [omap list_omap]. unfold keyed_returned at 1.
  destruct (returned i) as [s |] eqn:Hs; simpl; [| exact IH].
  rewrite (sort_key_NoDup i s Hnd Hs). by f_equal.
Qed.

Lemma keyed_returned_elem (l : list nat) (p : nat * section) :
  p ∈ omap keyed_returned l -> fst p ∈ l /\ returned (fst p) = Some (snd p).
Proof.
  intros Hp. apply list_elem_of_omap in Hp as (i & Hi & Hp).
  unfold keyed_returned in Hp.
  destruct (returned i) as [s |] eqn:Hs; simpl in Hp; [| done].
  injection Hp as <-. by simpl.
Qed.

Lemma keyed_returned_seq_sorted (start len : nat) :
  StronglySorted key_le (omap keyed_returned (seq start len)).
Proof.
  revert start. induction len as [| len IH]; intros start;
    [constructor |].
  cbn [seq omap list_omap]. unfold keyed_returned at 1.
  destruct (returned start) as [s |]; simpl; [| apply IH].
  constructor; [apply IH |].
  apply Forall_forall. intros p Hp.
  apply keyed_returned_elem in Hp as [Hp _].
  apply elem_of_seq in Hp. unfold key_le. simpl. lia.
Qed.

Lemma sorted_sections_NoDup completion :
  NoDup titles ->
  completion ≡ₚ seq 0 (length titles) ->
  snd <$> sort_keyed (keyed_as_completed completion)
  = sections_in_outline_order.
Proof.
  intros Hnd Hperm.
  assert (Hsorted : sort_keyed (keyed_as_completed completion)
                    = omap keyed_returned (seq 0 (length titles))).
  { apply (StronglySorted_unique_strong key_le).
    - intros p q Hp Hq Hpq Hqp.
      rewrite sort_keyed_perm, keyed_as_completed_NoDup in Hp by done.
      apply keyed_returned_elem in Hp as [_ Hp].
      apply keyed_returned_elem in Hq as [_ Hq].
      assert (fst p = fst q) as Heq by (unfold key_le in *; lia).
      rewrite Heq in Hp. destruct p, q; simpl in *. congruence.
    - apply Sorted_StronglySorted; [apply _ | apply sort_keyed_sorted].
    - apply keyed_returned_seq_sorted.
    - rewrite sort_keyed_perm, keyed_as_completed_NoDup by done.
      by rewrite Hperm. }
  rewrite Hsorted. unfold sections_in_outline_order.
  generalize (seq 0 (length titles)) as l.
  induction l as [| i l IH]; [reflexivity |].
  cbn [omap list_omap]. unfold keyed_returned at 1.
  destruct (returned i); simpl; [by f_equal | exact IH].
Qed.
End Aggregator.

(** Lists of sections paired with their own keys. *)
Section Keyed.
Variable titles : list string.

Local Notation own_key := (own_key titles).
Local Notation key_order := (key_order titles).

Lemma own_key_fmap (l : list section) :
  Forall own_key ((fun s => (sort_key titles s, s)) <$> l).
Proof. apply Forall_fmap, Forall_forall. by intros s _. Qed.

Lemma sorted_snd (l : list (nat * section)) :
  Forall own_key l -> Sorted key_le l -> Sorted key_order (snd <$> l).
Proof.
  intros Hown Hsorted.
  induction Hsorted as [| p l Hl IH Hhd]; [constructor |].
  apply Forall_cons in Hown as [Hp Hown].
  rewrite fmap_cons. constructor; [by apply IH |].
  destruct Hhd as [| q l Hpq]; [constructor |].
  apply Forall_cons in Hown as [Hq _].
  rewrite fmap_cons. constructor.
  unfold key_order, key_le, own_key in *. lia.
Qed.

Lemma filter_snd (k : nat) (l : list (nat * section)) :
  Forall own_key l ->
  snd <$> filter (fun q => fst q = k) l
  = filter (fun s => sort_key titles s = k) (snd <$> l).
Proof.
  induction 1 as [| p l Hp _ IH]; [reflexivity |].
  rewrite fmap_cons, !filter_cons. unfold own_key in Hp.
  repeat case_decide; try congruence; by rewrite ?fmap_cons, IH.
Qed.
End Keyed.

Lemma sort_key_first_occurrence replies sid token transcript titles i s :
  returned replies sid token transcript titles i = Some s ->
  exists t,
    titles !! i = Some t
    /\ title s = JStr t
    /\ titles !! sort_key titles s = Some t
    /\ forall j, (j < sort_key titles s)%nat -> titles !! j <> Some t.
Proof.
  intros Hs.
  destruct (returned_title _ _ _ _ _ _ _ Hs) as (t & Ht & Htitle).
  exists t. split; [done |]. split; [done |].
  unfold sort_key. rewrite Htitle.
  destruct (list_find_eq_member titles t) as [k Hk];
    [by eapply list_elem_of_lookup_2 |].
  rewrite Hk. simpl. by apply list_find_eq_first.
Qed.

Lemma completion_in_range (titles : list string) (completion : list nat) :
  completion ≡ₚ seq 0 (length titles) ->
  Forall (fun i => (i < length titles)%nat) completion.
Proof.
  intros ->. apply Forall_forall. intros i Hi.
  apply elem_of_seq in Hi. lia.
Qed.

(** For a completion order that is a permutation of the submitted
    positions, the aggregator returns exactly the returned sections. *)
Lemma aggregator_returns replies sid token transcript titles completion :
  completion ≡ₚ seq 0 (length titles) ->
  exists sections,
    call_second_interaction_parallel replies completion sid token transcript
      (outline_of titles)
    = (requests_sent sid token transcript titles
       ++ omap (logged replies sid token transcript titles) completion,
       Ret sections)
    /\ sections
       = snd <$> sort_keyed (keyed_as_completed replies sid token transcript
                               titles completion)
    /\ sections ≡ₚ sections_in_outline_order replies sid token transcript titles.
Proof.
  intros Hperm. eexists. split; [apply call_second_interaction_parallel_eq |].
  split; [reflexivity |].
  rewrite sorted_sections_perm. unfold sections_as_completed.
  by rewrite Hperm.
Qed.

Lemma execute_interaction_failure reply interaction_id token data :
  failure reply ->
  exists msg,
    execute_interaction reply interaction_id token data
    = ([request interaction_id token data], Ret (error_value msg)).
Proof.
  intros Hfail. unfold execute_interaction, request.
  destruct Hfail as [r Hne | r Hok Hjson | e Ht | e Hr]; simpl.
  - apply Z.eqb_neq in Hne. rewrite Hne. by eexists.
  - rewrite Hok, Hjson. by eexists.
  - rewrite Ht. by eexists.
  - destruct (is_Timeout e); [by eexists |]. rewrite Hr. by eexists.
Qed.

Lemma call_second_outline_tolerated reply sid token transcript outline item :
  tolerated reply ->
  snd (call_second_outline reply sid token transcript outline item)
  = Ret {| title := item; subsections := JArr [] |}.
Proof.
  intros Htol. unfold call_second_outline.
  destruct Htol as [reply Hfail | r d Hok Hjson Hres
                    | r d d' Hok Hjson Hres Hout].
  - destruct (execute_interaction_failure reply sid token
                (second_stage_data transcript outline item) Hfail)
      as [msg Hexec].
    unfold second_stage_data in Hexec. rewrite Hexec. reflexivity.
  - unfold execute_interaction. rewrite Hok, Hjson.
    cbn [Z.eqb Pos.eqb bind emit ret lift py_get app]. rewrite Hres.
    reflexivity.
  - unfold execute_interaction. rewrite Hok, Hjson.
    cbn [Z.eqb Pos.eqb bind emit ret lift py_get app]. rewrite Hres.
    cbn [from_option id bind lift py_get]. rewrite Hout. reflexivity.
Qed.

(** ** Claims about the aggregator *)

(** C1 at a failing input. With the outline [["Q&A"; "Q&A"]] and the second
    call finishing first, the section of item 1 comes before the section of
    item 0; with the first call finishing first the order is the outline's.
    Both sections get key 0, so [sorted] leaves them as collected. *)
Theorem aggregator_duplicate_titles_follow_completion :
  let run order :=
    snd (call_second_interaction_parallel duplicate_replies order
           "outline-2" "secret" (JStr "Hello") (outline_of duplicate_titles)) in
  let first := {| title := JStr "Q&A"; subsections := titled ["first answer"] |} in
  let second := {| title := JStr "Q&A"; subsections := titled ["second answer"] |} in
  sections_in_outline_order duplicate_replies "outline-2" "secret"
    (JStr "Hello") duplicate_titles = [first; second]
  /\ [1; 0]%nat ≡ₚ seq 0 (length duplicate_titles)
  /\ run [0; 1]%nat = Ret [first; second]
  /\ run [1; 0]%nat = Ret [second; first]
  /\ sort_key duplicate_titles first = sort_key duplicate_titles second.
Proof.
  repeat split; try reflexivity. apply perm_swap.
Qed.

(** C9. The aggregator restores order by sorting the collected sections on
    the position of the first occurrence of their title in the outline:
    the result is a permutation of the collected sections, ordered by that
    key; two sections whose items carry the same title get the same key,
    and sections of equal key stay in completion order.  When the titles
    are pairwise distinct, the result is the outline order, whatever the
    completion order. *)
Theorem aggregator_sorts_by_first_occurrence
    (replies : nat -> post_outcome) (sid token : string) (transcript : json)
    (titles : list string) (completion : list nat) :
  completion ≡ₚ seq 0 (length titles) ->
  let returned := returned replies sid token transcript titles in
  let collected :=
    sections_as_completed replies sid token transcript titles completion in
  exists sections,
    snd (call_second_interaction_parallel replies completion sid token
           transcript (outline_of titles)) = Ret sections
    /\ sections ≡ₚ collected
    /\ Sorted (key_order titles) sections
    /\ (forall i s, returned i = Some s ->
          exists t, titles !! i = Some t
                    /\ titles !! sort_key titles s = Some t
                    /\ forall j, (j < sort_key titles s)%nat ->
                                 titles !! j <> Some t)
    /\ (forall i j s s', returned i = Some s -> returned j = Some s' ->
          titles !! i = titles !! j -> sort_key titles s = sort_key titles s')
    /\ (forall k, filter (fun s => sort_key titles s = k) sections
                  = filter (fun s => sort_key titles s = k) collected)
    /\ (NoDup titles ->
          sections
          = sections_in_outline_order replies sid token transcript titles).
Proof.
  intros Hperm returned collected.
  destruct (aggregator_returns replies sid token transcript titles completion
              Hperm) as (sections & Hrun & Hsections & _).
  exists sections. rewrite Hrun. split; [reflexivity |].
  assert (Hown : Forall (own_key titles)
                   (keyed_as_completed replies sid token transcript titles
                      completion)) by apply own_key_fmap.
  repeat split.
  - rewrite Hsections. apply sorted_sections_perm.
  - rewrite Hsections. apply sorted_snd; [| apply sort_keyed_sorted].
    by rewrite sort_keyed_perm.
  - intros i s Hs.
    destruct (sort_key_first_occurrence _ _ _ _ _ _ _ Hs)
      as (t & Ht & _ & Hkey & Hfirst).
    eauto.
  - intros i j s s' Hs Hs' Hij.
    destruct (sort_key_first_occurrence _ _ _ _ _ _ _ Hs)
      as (t & Ht & Htitle & _).
    destruct (sort_key_first_occurrence _ _ _ _ _ _ _ Hs')
      as (t' & Ht' & Htitle' & _).
    unfold sort_key. rewrite Htitle, Htitle'. congruence.
  - intros k. rewrite Hsections.
    rewrite <- (filter_snd titles) by (by rewrite sort_keyed_perm).
    rewrite sort_keyed_filter, (filter_snd titles) by done.
    by rewrite snd_keyed_as_completed.
  - intros Hnd. rewrite Hsections. by apply sorted_sections_NoDup.
Qed.

Lemma sample_completion_perm : [2; 0; 1]%nat ≡ₚ seq 0 (length sample_titles).
Proof.
  simpl. etrans; [apply perm_swap |]. apply perm_skip, perm_swap.
Defined.

Lemma aggregator_sorts_by_first_occurrence_witness :
  exists sections,
    snd (call_second_interaction_parallel sample_replies [2; 0; 1]%nat
           "outline-2" "secret" (JStr "Hello") (outline_of sample_titles))
    = Ret sections
    /\ sections ≡ₚ sections_as_completed sample_replies "outline-2" "secret"
                     (JStr "Hello") sample_titles [2; 0; 1]%nat
    /\ Sorted (key_order sample_titles) sections.
Proof.
  destruct (aggregator_sorts_by_first_occurrence sample_replies "outline-2"
              "secret" (JStr "Hello") sample_titles [2; 0; 1]%nat
              sample_completion_perm)
    as (sections & Hrun & Hperm & Hsorted & _).
  exists sections. auto.
Defined.

(** C7. A worker that raises is logged and its section is left out; the
    aggregator itself returns.  The result holds exactly the sections of
    the workers that returned, so its length is the number of items less
    the number of workers that raised. *)
Theorem aggregator_omits_raising_workers
    (replies : nat -> post_outcome) (sid token : string) (transcript : json)
    (titles : list string) (completion : list nat) :
  completion ≡ₚ seq 0 (length titles) ->
  let run :=
    call_second_interaction_parallel replies completion sid token transcript
      (outline_of titles) in
  let worker := worker replies sid token transcript titles in
  exists sections,
    snd run = Ret sections
    /\ sections ≡ₚ sections_in_outline_order replies sid token transcript titles
    /\ length sections
       = (length titles
          - length (omap (raised replies sid token transcript titles)
                      (seq 0 (length titles))))%nat
    /\ (forall i t s, titles !! i = Some t -> worker i t = Ret s ->
          s ∈ sections)
    /\ (forall i t e, titles !! i = Some t -> worker i t = Raise e ->
          EvPrint [Lit "Error occurred while processing outline ";
                   Str (JStr t); Lit ": "; StrExn e] ∈ fst run).
Proof.
  intros Hperm run worker.
  destruct (aggregator_returns replies sid token transcript titles completion
              Hperm) as (sections & Hrun & _ & Hsections).
  exists sections. subst run. rewrite Hrun. split; [reflexivity |].
  split; [exact Hsections |]. repeat split.
  - rewrite Hsections. unfold sections_in_outline_order.
    pose proof (returned_raised_count replies sid token transcript titles
                  (seq 0 (length titles))
                  (completion_in_range titles _ (reflexivity _))) as Hcount.
    rewrite length_seq in Hcount. lia.
  - intros i t s Ht Hw. rewrite Hsections.
    apply list_elem_of_omap. exists i. split.
    + apply elem_of_seq. apply lookup_lt_Some in Ht. lia.
    + unfold returned. rewrite Ht. simpl. fold worker. by rewrite Hw.
  - intros i t e Ht Hw. simpl. apply elem_of_app. right.
    apply list_elem_of_omap. exists i. split.
    + rewrite Hperm. apply elem_of_seq. apply lookup_lt_Some in Ht. lia.
    + unfold logged. rewrite Ht. simpl. fold worker. by rewrite Hw.
Qed.

Lemma aggregator_omits_raising_workers_witness :
  exists sections,
    snd (call_second_interaction_parallel sample_replies [2; 0; 1]%nat
           "outline-2" "secret" (JStr "Hello") (outline_of sample_titles))
    = Ret sections
    /\ length sections
       = (length sample_titles
          - length (omap (raised sample_replies "outline-2" "secret"
                            (JStr "Hello") sample_titles)
                      (seq 0 (length sample_titles))))%nat.
Proof.
  destruct (aggregator_omits_raising_workers sample_replies "outline-2"
              "secret" (JStr "Hello") sample_titles [2; 0; 1]%nat
              sample_completion_perm)
    as (sections & Hrun & _ & Hlen & _).
  exists sections. auto.
Defined.

Example sample_sections :
  call_second_interaction_parallel sample_replies [2; 0; 1]%nat
    "outline-2" "secret" (JStr "Hello") (outline_of sample_titles)
  = (requests_sent "outline-2" "secret" (JStr "Hello") sample_titles
     ++ [EvPrint [Lit "Error occurred while processing outline ";
                  Str (JStr "Method"); Lit ": ";
                  StrExn (Exn AttributeError
                            "'list' object has no attribute 'get'")]],
     Ret [ {| title := JStr "Intro"; subsections := titled ["Welcome"] |};
           {| title := JStr "Q&A"; subsections := JArr [] |} ]).
Proof. reflexivity. Qed.

(** C6, as stated, fails on a decoded body that has no
    [second_level_outline] field because its ["result"] is [null]: the
    worker raises [AttributeError], the line is logged and the item gets no
    section. *)
Lemma aggregator_null_result_loses_section :
  let body := [("result", JNull)] in
  let reply := PostResponse (Response 200 "{...}" (Some (JObj body))) in
  dict_lookup "second_level_outline" body = None
  /\ call_second_interaction_parallel (fun _ => reply) [0%nat]
       "outline-2" "secret" (JStr "Hello") (outline_of ["Intro"])
     = (requests_sent "outline-2" "secret" (JStr "Hello") ["Intro"]
        ++ [EvPrint [Lit "Error occurred while processing outline ";
                     Str (JStr "Intro"); Lit ": ";
                     StrExn (Exn AttributeError
                               "'NoneType' object has no attribute 'get'")]],
        Ret []).
Proof. split; reflexivity. Qed.

(** C6, amended. For every outline item whose second-stage call ends in one
    of the client's four error values, or in a decoded dict whose
    ["result"] is missing or is a dict without [second_level_outline], the
    worker returns and the aggregator's result holds the section made of
    that item and an empty list of subsections. *)
Theorem aggregator_keeps_tolerated_items
    (replies : nat -> post_outcome) (sid token : string) (transcript : json)
    (titles : list string) (completion : list nat) (i : nat) (t : string) :
  completion ≡ₚ seq 0 (length titles) ->
  titles !! i = Some t ->
  tolerated (replies i) ->
  let empty := {| title := JStr t; subsections := JArr [] |} in
  worker replies sid token transcript titles i t = Ret empty
  /\ exists sections,
       snd (call_second_interaction_parallel replies completion sid token
              transcript (outline_of titles)) = Ret sections
       /\ empty ∈ sections.
Proof.
  intros Hperm Ht Htol empty.
  assert (Hworker : worker replies sid token transcript titles i t = Ret empty)
    by (by apply call_second_outline_tolerated).
  split; [exact Hworker |].
  destruct (aggregator_returns replies sid token transcript titles completion
              Hperm) as (sections & Hrun & _ & Hsections).
  exists sections. rewrite Hrun. split; [reflexivity |].
  rewrite Hsections. apply list_elem_of_omap. exists i. split.
  - apply elem_of_seq. apply lookup_lt_Some in Ht. lia.
  - unfold returned. rewrite Ht. simpl. by rewrite Hworker.
Qed.

Lemma aggregator_keeps_tolerated_items_witness :
  let empty := {| title := JStr "Q&A"; subsections := JArr [] |} in
  worker sample_replies "outline-2" "secret" (JStr "Hello") sample_titles
    2 "Q&A" = Ret empty
  /\ exists sections,
       snd (call_second_interaction_parallel sample_replies [2; 0; 1]%nat
              "outline-2" "secret" (JStr "Hello") (outline_of sample_titles))
       = Ret sections
       /\ empty ∈ sections.
Proof.
  apply (aggregator_keeps_tolerated_items sample_replies "outline-2" "secret"
           (JStr "Hello") sample_titles [2; 0; 1]%nat 2 "Q&A"
           sample_completion_perm).
  - reflexivity.
  - apply tolerated_failure, failure_transport. reflexivity.
Defined.

(** ** The format converter *)

Lemma convert_to_pdf_returns (run_reply : option exn) (word_file_name : string) :
  snd (convert_to_pdf run_reply word_file_name)
  = Ret (str_replace ".docx" ".pdf" word_file_name).
Proof. unfold convert_to_pdf. by destruct run_reply. Qed.

(** C8 at a failing input. Whatever [subprocess.run] raises, nothing
    propagates and a name is returned; but the name is the input with every
    [.docx] replaced, so for [notes.docx_20240101_120000.docx] the call
    returns [notes.pdf_20240101_120000.pdf], not the input with its suffix
    replaced ([notes.docx_20240101_120000.pdf]). *)
Theorem convert_to_pdf_replaces_every_docx :
  (forall run_reply word_file_name,
     exists pdf_file_name,
       snd (convert_to_pdf run_reply word_file_name) = Ret pdf_file_name)
  /\ dotted_word_file_name = "notes.docx_20240101_120000.docx"
  /\ convert_to_pdf
       (Some (Exn FileNotFoundError "[Errno 2] No such file or directory"))
       dotted_word_file_name
     = ([EvRun [soffice; "--headless"; "--convert-to"; "pdf";
                "notes.docx_20240101_120000.docx"];
         EvPrint [Lit "Error during PDF conversion: ";
                  StrExn (Exn FileNotFoundError
                            "[Errno 2] No such file or directory")]],
        Ret "notes.pdf_20240101_120000.pdf")
  /\ "notes.pdf_20240101_120000.pdf" <> "notes.docx_20240101_120000.pdf".
Proof.
  split; [| repeat split; [reflexivity .. | discriminate]].
  intros run_reply word_file_name. eexists. apply convert_to_pdf_returns.
Qed.

(** * Further properties of the script *)

(** ** Outcomes of one worker *)

Lemma reply_shapes (reply : post_outcome) :
  (exists subs, well_shaped reply subs) \/ ill_shaped reply.
Proof.
  destruct reply as [r | e].
  - destruct (Z.eqb (status_code r) 200) eqn:Hstatus.
    + apply Z.eqb_eq in Hstatus.
      destruct (resp_json r) as [body |] eqn:Hjson.
      * destruct body as [| b | n | s | l | d];
          try (right; by eapply ill_shaped_body).
        destruct (dict_lookup "result" d) as [v |] eqn:Hres.
        -- destruct v as [| b | n | s | l | d'];
             try (right; by eapply ill_shaped_result).
           destruct (dict_lookup "second_level_outline" d') as [subs |] eqn:Hout.
           ++ left. exists subs. by eapply well_shaped_outline.
           ++ left. exists (JArr []). apply well_shaped_tolerated.
              by eapply tolerated_no_outline.
        -- left. exists (JArr []). apply well_shaped_tolerated.
           by eapply tolerated_no_result.
      * left. exists (JArr []).
        by apply well_shaped_tolerated, tolerated_failure, failure_decode.
    + apply Z.eqb_neq in Hstatus.
      left. exists (JArr []).
      by apply well_shaped_tolerated, tolerated_failure, failure_status.
  - destruct (is_RequestException e) eqn:He.
    + left. exists (JArr []).
      by apply well_shaped_tolerated, tolerated_failure, failure_transport.
    + right. by apply ill_shaped_exception.
Qed.

Lemma is_Timeout_RequestException e :
  is_Timeout e = true -> is_RequestException e = true.
Proof. unfold is_Timeout, is_RequestException. by destruct (exn_cls e). Qed.

Lemma py_get_not_dict j k dflt :
  (forall d, j <> JObj d) -> exists e, py_get j k dflt = Raise e.
Proof. intros Hj. destruct j; simpl; eauto. by destruct (Hj d). Qed.

Lemma call_second_outline_well_shaped reply sid token transcript outline item
    subs :
  well_shaped reply subs ->
  snd (call_second_outline reply sid token transcript outline item)
  = Ret {| title := item; subsections := subs |}.
Proof.
  intros [reply' Htol | r d d' subs' Hok Hjson Hres Hout].
  - by apply call_second_outline_tolerated.
  - unfold call_second_outline, execute_interaction.
    rewrite Hok, Hjson.
    cbn [Z.eqb Pos.eqb bind emit ret lift py_get app]. rewrite Hres.
    cbn [from_option id bind lift py_get]. rewrite Hout. reflexivity.
Qed.

(** X7. What one second-stage worker does is decided by the shape of its
    reply.  Every reply is well shaped or ill shaped.  On a well-shaped
    reply the worker returns the section made of its item and the
    subsections of the reply ([[]] for an error value or a missing field);
    on an ill-shaped reply it raises.  In both cases it has sent exactly
    its one request, carrying the transcript, the whole outline and the
    item. *)
Theorem call_second_outline_outcomes
    (reply : post_outcome) (sid token : string)
    (transcript outline item : json) :
  let run := call_second_outline reply sid token transcript outline item in
  fst run = [request sid token (second_stage_data transcript outline item)]
  /\ ((exists subs, well_shaped reply subs) \/ ill_shaped reply)
  /\ (forall subs, well_shaped reply subs ->
        snd run = Ret {| title := item; subsections := subs |})
  /\ (ill_shaped reply -> exists e, snd run = Raise e).
Proof.
  intros run. split; [| split; [apply reply_shapes | split]].
  - subst run.
    by destruct (call_second_outline_shape reply sid token transcript outline
                   item) as (o & -> & _).
  - intros subs Hwell. subst run.
    by apply call_second_outline_well_shaped.
  - intros Hill. subst run. unfold call_second_outline, execute_interaction.
    destruct Hill as [e He | r body Hok Hjson Hbody | r d v Hok Hjson Hres Hv].
    + destruct (is_Timeout e) eqn:Ht;
        [apply is_Timeout_RequestException in Ht; congruence |].
      rewrite He. by eexists.
    + rewrite Hok, Hjson. cbn [Z.eqb Pos.eqb bind emit ret lift app].
      destruct (py_get_not_dict body "result" (JObj []) Hbody) as [e ->].
      by eexists.
    + rewrite Hok, Hjson.
      cbn [Z.eqb Pos.eqb bind emit ret lift py_get app]. rewrite Hres.
      cbn [from_option id bind lift].
      destruct (py_get_not_dict v "second_level_outline" (JArr []) Hv)
        as [e ->].
      by eexists.
Qed.

Lemma call_second_outline_outcomes_witness :
  exists e,
    snd (call_second_outline
           (PostResponse (Response 200 "[]" (Some (JArr []))))
           "outline-2" "secret" (JStr "Hello") (outline_of sample_titles)
           (JStr "Method"))
    = Raise e.
Proof.
  apply (call_second_outline_outcomes
           (PostResponse (Response 200 "[]" (Some (JArr []))))
           "outline-2" "secret" (JStr "Hello") (outline_of sample_titles)
           (JStr "Method")).
  by eapply ill_shaped_body.
Defined.

(** ** Early ends of a run *)

(** X1. Unless the command line holds exactly four arguments after the
    program name, the run prints the usage line and exits with status 1:
    no file is read and no request is sent. *)
Theorem main_wrong_arity_prints_usage (w : world) (argv : list string) :
  length argv <> 5%nat ->
  main w argv = ([EvPrint [Lit usage]], Exit 1).
Proof.
  intros Hlen.
  destruct argv as [| a0 [| a1 [| a2 [| a3 [| a4 [| a5 rest]]]]]];
    try reflexivity.
  by destruct Hlen.
Qed.

Lemma main_wrong_arity_prints_usage_witness :
  main (sample_world (PostRaise (Exn OtherException "unused")))
    ["generate.py"; "outline-1"; "secret"]
  = ([EvPrint [Lit usage]], Exit 1).
Proof.
  apply (main_wrong_arity_prints_usage
           (sample_world (PostRaise (Exn OtherException "unused")))
           ["generate.py"; "outline-1"; "secret"]).
  simpl. discriminate.
Defined.

(** X2. When the transcript cannot be read, no request is sent.  A missing
    file makes the run print the "not found" line and exit with status 1;
    any other exception of [open]/[read] (a directory, a permission, bytes
    that are not UTF-8) is not caught and ends the run with a traceback. *)
Theorem main_unreadable_transcript
    (w : world) (prog interaction_id token file_name second_interaction_id
     : string) (e : exn) :
  fs w file_name = ReadRaise e ->
  let run :=
    main w [prog; interaction_id; token; file_name; second_interaction_id] in
  (is_FileNotFoundError e = true ->
     run = ([EvPrint [Lit ("Error: The file '" +:+ file_name
                           +:+ "' was not found.")]], Exit 1))
  /\ (is_FileNotFoundError e = false -> run = ([], Raise e))
  /\ exit_status run = 1%Z.
Proof.
  intros Hfs run. subst run. unfold main, read_file_as_json. rewrite Hfs.
  destruct (is_FileNotFoundError e); repeat split; by try done.
Qed.

Lemma main_unreadable_transcript_witness :
  exit_status
    (main (sample_world (PostRaise (Exn OtherException "unused")))
       ["generate.py"; "outline-1"; "secret"; "absent.txt"; "outline-2"])
  = 1%Z.
Proof.
  apply (main_unreadable_transcript
           (sample_world (PostRaise (Exn OtherException "unused")))
           "generate.py" "outline-1" "secret" "absent.txt" "outline-2"
           (Exn FileNotFoundError "absent.txt")).
  reflexivity.
Defined.



Lemma execute_interaction_body reply interaction_id token data r body :
  reply = PostResponse r -> status_code r = 200%Z ->
  resp_json r = Some body ->
  execute_interaction reply interaction_id token data
  = ([request interaction_id token data], Ret body).
Proof.
  intros -> Hok Hjson. unfold execute_interaction.
  rewrite Hok, Hjson. reflexivity.
Qed.

(** X4. A first-stage body that decodes to something other than a dict (a
    list, a string, a number, [true], [null]) ends the run in an uncaught
    exception right after the first request: exit status 1, no
    second-stage request, no document. *)
Theorem main_non_dict_body_crashes
    (w : world) (prog interaction_id token file_name second_interaction_id
     stored : string) (r : response) (body : json) :
  fs w file_name = ReadText stored ->
  first_reply w = PostResponse r ->
  status_code r = 200%Z ->
  resp_json r = Some body ->
  (forall d, body <> JObj d) ->
  exists e,
    main w [prog; interaction_id; token; file_name; second_interaction_id]
    = ([request interaction_id token (transcript_payload stored)], Raise e).
Proof.
  intros Hfs Hreply Hok Hjson Hbody.
  rewrite (main_first_stage w prog interaction_id token file_name
             second_interaction_id stored body Hfs
             (execute_interaction_body _ _ _ _ r body Hreply Hok Hjson)).
  unfold read_file_as_json. rewrite Hfs.
  destruct body as [| b | n | s | l | d];
    try (eexists; reflexivity); [| | by destruct (Hbody d)].
  - cbn [py_contains bind ret lift emit app].
    destruct (bool_decide _); eexists; reflexivity.
  - cbn [py_contains bind ret lift emit app].
    destruct (bool_decide _); eexists; reflexivity.
Qed.

Lemma main_non_dict_body_crashes_witness :
  exists e,
    main (sample_world (PostResponse (Response 200 "[]" (Some (JArr [])))))
      sample_argv
    = ([request "outline-1" "secret" (transcript_payload "Hello")], Raise e).
Proof.
  apply (main_non_dict_body_crashes
           (sample_world (PostResponse (Response 200 "[]" (Some (JArr [])))))
           "generate.py" "outline-1" "secret" "talk.txt" "outline-2" "Hello"
           (Response 200 "[]" (Some (JArr []))) (JArr []));
    done.
Defined.

(** The run after a decoded first-stage dict without an ["error"] key. *)
Lemma main_second_stage (w : world) (prog interaction_id token file_name
    second_interaction_id stored : string) (r : response)
    (d : list (string * json)) (result first_level_outline : json) :
  fs w file_name = ReadText stored ->
  first_reply w = PostResponse r ->
  status_code r = 200%Z ->
  resp_json r = Some (JObj d) ->
  dict_lookup "error" d = None ->
  py_get (JObj d) "result" (JObj []) = Ret result ->
  py_get result "first_level_outline" (JArr []) = Ret first_level_outline ->
  main w [prog; interaction_id; token; file_name; second_interaction_id]
  = let* _ := emit (request interaction_id token (transcript_payload stored)) in
    if negb (py_truthy first_level_outline) then
      print [Lit "No first level outline found."]
    else
      let* sections :=
        call_second_interaction_parallel (second_replies w) (completion w)
          second_interaction_id token (JStr (universal_newlines stored))
          first_level_outline in
      let* word_file_name :=
        create_word_document (now w) (save_reply w)
          (JStr (universal_newlines stored)) sections
          (splitext_root (basename file_name)) in
      let* _ := convert_to_pdf (run_reply w) word_file_name in
      ret tt.
Proof.
  intros Hfs Hreply Hok Hjson Herr Hres Hout.
  rewrite (main_first_stage w prog interaction_id token file_name
             second_interaction_id stored (JObj d) Hfs
             (execute_interaction_body _ _ _ _ r _ Hreply Hok Hjson)).
  unfold read_file_as_json. rewrite Hfs.
  rewrite py_contains_dict, Herr, Hres. cbn [bind ret lift emit app].
  rewrite Hout.
  destruct (negb (py_truthy first_level_outline)); [reflexivity |].
  cbn [py_getitem dict_lookup String.eqb Ascii.eqb Bool.eqb bind lift app].
  set (rest := bind (call_second_interaction_parallel _ _ _ _ _ _) _).
  by destruct rest as [t o].
Qed.

(** X5. After a successful first stage, any falsy first-level outline
    stops the run with the "no outline" line and status 0: not only an
    empty or missing list but also [null], [false], [0], an empty string
    and an empty dict. *)
Theorem main_falsy_outline_stops
    (w : world) (prog interaction_id token file_name second_interaction_id
     stored : string) (r : response) (d : list (string * json))
    (result first_level_outline : json) :
  fs w file_name = ReadText stored ->
  first_reply w = PostResponse r ->
  status_code r = 200%Z ->
  resp_json r = Some (JObj d) ->
  dict_lookup "error" d = None ->
  py_get (JObj d) "result" (JObj []) = Ret result ->
  py_get result "first_level_outline" (JArr []) = Ret first_level_outline ->
  first_level_outline ∈ [JNull; JBool false; JNum 0; JStr EmptyString;
                         JArr []; JObj []] ->
  main w [prog; interaction_id; token; file_name; second_interaction_id]
  = ([request interaction_id token (transcript_payload stored);
      EvPrint [Lit "No first level outline found."]], Ret tt).
Proof.
  intros Hfs Hreply Hok Hjson Herr Hres Hout Hfalsy.
  rewrite (main_second_stage w prog interaction_id token file_name
             second_interaction_id stored r d result first_level_outline)
    by done.
  repeat (apply elem_of_cons in Hfalsy as [-> | Hfalsy]; [reflexivity |]).
  by apply elem_of_nil in Hfalsy.
Qed.

Lemma main_falsy_outline_stops_witness :
  main (sample_world
          (PostResponse
             (Response 200 "{...}"
                (Some (JObj [("result",
                              JObj [("first_level_outline", JNull)])])))))
    sample_argv
  = ([request "outline-1" "secret" (transcript_payload "Hello");
      EvPrint [Lit "No first level outline found."]], Ret tt).
Proof.
  apply (main_falsy_outline_stops
           (sample_world
              (PostResponse
                 (Response 200 "{...}"
                    (Some (JObj [("result",
                                  JObj [("first_level_outline", JNull)])])))))
           "generate.py" "outline-1" "secret" "talk.txt" "outline-2" "Hello"
           (Response 200 "{...}"
              (Some (JObj [("result", JObj [("first_level_outline", JNull)])])))
           [("result", JObj [("first_level_outline", JNull)])]
           (JObj [("first_level_outline", JNull)]) JNull);
    try reflexivity.
  apply list_elem_of_here.
Defined.

(** X6. A first-level outline that is truthy but not iterable (a non-zero
    number, [true]) makes the aggregator raise [TypeError] before any
    worker is submitted: the run ends in an uncaught exception with no
    second-stage request and no document. *)
Theorem main_non_iterable_outline_crashes
    (w : world) (prog interaction_id token file_name second_interaction_id
     stored : string) (r : response) (d : list (string * json))
    (result first_level_outline : json) (e : exn) :
  fs w file_name = ReadText stored ->
  first_reply w = PostResponse r ->
  status_code r = 200%Z ->
  resp_json r = Some (JObj d) ->
  dict_lookup "error" d = None ->
  py_get (JObj d) "result" (JObj []) = Ret result ->
  py_get result "first_level_outline" (JArr []) = Ret first_level_outline ->
  py_truthy first_level_outline = true ->
  py_iter first_level_outline = Raise e ->
  main w [prog; interaction_id; token; file_name; second_interaction_id]
  = ([request interaction_id token (transcript_payload stored)], Raise e)
  /\ exn_cls e = TypeError.
Proof.
  intros Hfs Hreply Hok Hjson Herr Hres Hout Htruthy Hiter.
  rewrite (main_second_stage w prog interaction_id token file_name
             second_interaction_id stored r d result first_level_outline)
    by done.
  rewrite Htruthy. unfold call_second_interaction_parallel. rewrite Hiter.
  split; [reflexivity |].
  destruct first_level_outline; simpl in Hiter; by inversion Hiter.
Qed.

Lemma main_non_iterable_outline_crashes_witness :
  main (sample_world
          (PostResponse
             (Response 200 "{...}"
                (Some (JObj [("result",
                              JObj [("first_level_outline", JNum 7)])])))))
    sample_argv
  = ([request "outline-1" "secret" (transcript_payload "Hello")],
     Raise (Exn TypeError "'int' object is not iterable"))
  /\ exn_cls (Exn TypeError "'int' object is not iterable") = TypeError.
Proof.
  apply (main_non_iterable_outline_crashes
           (sample_world
              (PostResponse
                 (Response 200 "{...}"
                    (Some (JObj [("result",
                                  JObj [("first_level_outline", JNum 7)])])))))
           "generate.py" "outline-1" "secret" "talk.txt" "outline-2" "Hello"
           (Response 200 "{...}"
              (Some (JObj [("result", JObj [("first_level_outline", JNum 7)])])))
           [("result", JObj [("first_level_outline", JNum 7)])]
           (JObj [("first_level_outline", JNum 7)]) (JNum 7));
    reflexivity.
Defined.

(** ** Requests of the aggregator *)

Lemma filter_posts_requests sid token transcript titles :
  filter (fun ev => is_post ev = true)
    (requests_sent sid token transcript titles)
  = requests_sent sid token transcript titles.
Proof.
  unfold requests_sent. generalize (outline_of titles) as outline.
  intros outline. induction titles as [| t l IH]; [reflexivity |].
  rewrite fmap_cons, filter_cons_True by reflexivity. by rewrite IH.
Qed.

Lemma filter_posts_logged replies sid token transcript titles l :
  filter (fun ev => is_post ev = true)
    (omap (logged replies sid token transcript titles) l) = [].
Proof.
  induction l as [| i l IH]; [reflexivity |].
  cbn [omap list_omap]. unfold logged at 1.
  destruct (titles !! i) as [t |]; simpl; [| exact IH].
  destruct (worker replies sid token transcript titles i t); exact IH.
Qed.


(** ** The document builder *)

Lemma quiet_ret {A} (a : A) : quiet (ret a).
Proof. by split. Qed.

Lemma quiet_lift {A} (o : outcome A) :
  (forall code, o <> Exit code) -> quiet (lift o).
Proof. by split. Qed.

Lemma quiet_bind {A B} (m : M A) (f : A -> M B) :
  quiet m -> (forall a, quiet (f a)) -> quiet (bind m f).
Proof.
  destruct m as [t [a | e | code]]; intros [Ht Ho] Hf; simpl in *; subst.
  - destruct (Hf a) as [Hta Hoa]. by destruct (f a) as [t' o'].
  - by split.
  - by destruct (Ho code).
Qed.

Lemma quiet_mapM {A B} (f : A -> M B) (l : list A) :
  (forall x, quiet (f x)) -> quiet (mapM f l).
Proof.
  intros Hf. induction l as [| x l IH]; [apply quiet_ret |].
  cbn [mapM]. apply quiet_bind; [apply Hf |].
  intros y. apply quiet_bind; [exact IH |]. intros ys. apply quiet_ret.
Qed.

Lemma quiet_cases {A} (m : M A) :
  quiet m -> (exists a, m = ([], Ret a)) \/ (exists e, m = ([], Raise e)).
Proof.
  destruct m as [t [a | e | code]]; intros [Ht Ho]; simpl in *; subst; eauto.
  by destruct (Ho code).
Qed.

Lemma py_getitem_no_exit j k code : py_getitem j k <> Exit code.
Proof. destruct j; simpl; try done. by destruct (dict_lookup k d). Qed.

Lemma py_iter_no_exit j code : py_iter j <> Exit code.
Proof. by destruct j. Qed.

Lemma quiet_content_blocks item : quiet (content_blocks item).
Proof.
  apply quiet_bind; [apply quiet_lift, py_getitem_no_exit |].
  intros point. apply quiet_ret.
Qed.

Lemma quiet_subsection_blocks subsection : quiet (subsection_blocks subsection).
Proof.
  unfold subsection_blocks.
  apply quiet_bind; [apply quiet_lift, py_getitem_no_exit | intros t].
  apply quiet_bind; [apply quiet_lift, py_getitem_no_exit | intros content].
  apply quiet_bind; [apply quiet_lift, py_iter_no_exit | intros items].
  apply quiet_bind; [apply quiet_mapM, quiet_content_blocks | intros bullets].
  apply quiet_ret.
Qed.

Lemma quiet_section_blocks s : quiet (section_blocks s).
Proof.
  unfold section_blocks.
  apply quiet_bind; [apply quiet_lift, py_iter_no_exit | intros subs].
  apply quiet_bind; [apply quiet_mapM, quiet_subsection_blocks | intros blocks].
  apply quiet_ret.
Qed.


Lemma mapM_Forall2 {A B} (f : A -> M B) (xs : list A) (ys : list B) :
  Forall2 (fun x y => f x = ([], Ret y)) xs ys ->
  mapM f xs = ([], Ret ys).
Proof.
  induction 1 as [| x y xs ys Hx _ IH]; [reflexivity |].
  cbn [mapM]. by rewrite Hx, IH.
Qed.

Lemma concat_singletons {A B} (g : A -> B) (l : list A) :
  concat ((fun x => [g x]) <$> l) = g <$> l.
Proof. induction l as [| x l IH]; [reflexivity |]. simpl. by f_equal. Qed.

Lemma content_blocks_point item p :
  is_point item p -> content_blocks item = ([], Ret [Bullet (JStr p)]).
Proof.
  intros (d & -> & Hp). unfold content_blocks. cbn [py_getitem].
  by rewrite Hp.
Qed.

Lemma subsection_blocks_render j s :
  is_subsection j s -> subsection_blocks j = ([], Ret (render_subsection s)).
Proof.
  intros (d & items & -> & Ht & Hc & Hitems).
  unfold subsection_blocks. cbn [py_getitem]. rewrite Ht, Hc.
  cbn [bind lift py_iter app].
  rewrite (mapM_Forall2 content_blocks items
             ((fun p => [Bullet (JStr p)]) <$> sub_points s)).
  - cbn [bind ret app]. unfold render_subsection.
    by rewrite (concat_singletons (fun p => Bullet (JStr p))).
  - apply Forall2_fmap_r. eapply Forall2_impl; [exact Hitems |].
    intros item p Hp. by apply content_blocks_point.
Qed.

Lemma section_blocks_render s r :
  is_section s r -> section_blocks s = ([], Ret (render_section r)).
Proof.
  intros [Htitle (items & Hsubs & Hitems)].
  unfold section_blocks. rewrite Hsubs, Htitle. cbn [bind lift py_iter app].
  rewrite (mapM_Forall2 subsection_blocks items (render_subsection <$> snd r)).
  - reflexivity.
  - apply Forall2_fmap_r. eapply Forall2_impl; [exact Hitems |].
    intros j sub Hj. by apply subsection_blocks_render.
Qed.

Lemma create_word_document_render now transcript sections base results :
  Forall2 is_section sections results ->
  create_word_document now None transcript sections base
  = ([EvSave (word_name base now) (render results);
      EvPrint [Lit ("Document '" +:+ word_name base now
                    +:+ "' created successfully.")]],
     Ret (word_name base now)).
Proof.
  intros Hsections. unfold create_word_document.
  rewrite (mapM_Forall2 section_blocks sections (render_section <$> results)).
  - reflexivity.
  - apply Forall2_fmap_r. eapply Forall2_impl; [exact Hsections |].
    intros s r Hs. by apply section_blocks_render.
Qed.

Lemma render_subsection_length s :
  length (render_subsection s) = subsection_size s.
Proof. unfold render_subsection, subsection_size. simpl. by rewrite length_fmap. Qed.

Lemma render_section_length r : length (render_section r) = section_size r.
Proof.
  unfold render_section, section_size. simpl. f_equal.
  induction (snd r) as [| s l IH]; [reflexivity |].
  rewrite !fmap_cons. cbn [concat]. rewrite length_app.
  rewrite render_subsection_length, IH. reflexivity.
Qed.

Lemma render_length results :
  length (render results) = (2 + sum_list (section_size <$> results))%nat.
Proof.
  unfold render. rewrite length_app. simpl. do 2 f_equal.
  induction results as [| r l IH]; [reflexivity |].
  rewrite !fmap_cons. cbn [concat]. rewrite length_app.
  rewrite render_section_length, IH. reflexivity.
Qed.



(** ** The name of the PDF *)

Lemma str_replace_absent (old new s : string) :
  occurs old s = false -> str_replace old new s = s.
Proof.
  unfold str_replace. induction s as [| c rest IH]; [reflexivity |].
  cbn [occurs str_replace_from]. intros H.
  apply orb_false_elim in H as [Hprefix Hrest].
  rewrite Hprefix. f_equal. by apply IH.
Qed.

Lemma prefix_cons (a b : ascii) (s1 s2 : string) :
  String.prefix (String a s1) (String b s2)
  = Ascii.eqb a b && String.prefix s1 s2.
Proof.
  cbn [String.prefix]. destruct (ascii_dec a b) as [-> | Hne].
  - by rewrite Ascii.eqb_refl.
  - by destruct (Ascii.eqb_spec a b).
Qed.

(** The pattern holds a dot only in front, so no occurrence can begin
    inside a stem free of it and run into the suffix. *)
Lemma prefix_docx_straddle (c : ascii) (rest : string) :
  String.prefix ".docx" (String c rest) = false ->
  String.prefix ".docx" (String c rest +:+ ".docx") = false.
Proof.
  intros H.
  destruct rest as [| c1 [| c2 [| c3 [| c4 rest]]]];
    cbv [String.append]; rewrite ?prefix_cons in *;
    cbn [String.prefix] in *;
    repeat (match goal with
            | |- context [Ascii.eqb ?a ?b] =>
                destruct (Ascii.eqb_spec a b) as [<- |]
            end; cbn [andb] in *; try done).
  by destruct rest.
Qed.

Lemma str_replace_docx_suffix (stem : string) :
  occurs ".docx" stem = false ->
  str_replace ".docx" ".pdf" (stem +:+ ".docx") = stem +:+ ".pdf".
Proof.
  unfold str_replace. induction stem as [| c rest IH]; [reflexivity |].
  intros H. cbn [occurs] in H.
  apply orb_false_elim in H as [Hprefix Hrest].
  change (String c rest +:+ ".docx") with (String c (rest +:+ ".docx")).
  cbn [str_replace_from].
  change (String c (rest +:+ ".docx")) with (String c rest +:+ ".docx").
  rewrite (prefix_docx_straddle c rest Hprefix).
  change (String c rest +:+ ".pdf") with (String c (rest +:+ ".pdf")).
  f_equal. by apply IH.
Qed.

(** X11. When [.docx] occurs in the document name only as its suffix,
    [convert_to_pdf] runs the office binary once on that name and returns
    the name with the suffix replaced by [.pdf], whether or not the
    conversion raised. *)
Theorem convert_to_pdf_swaps_suffix (run_reply : option exn) (stem : string) :
  occurs ".docx" stem = false ->
  let run := convert_to_pdf run_reply (stem +:+ ".docx") in
  snd run = Ret (stem +:+ ".pdf")
  /\ filter (fun ev => is_run ev = true) (fst run)
     = [EvRun [soffice; "--headless"; "--convert-to"; "pdf";
               stem +:+ ".docx"]].
Proof.
  intros Hstem run. subst run. unfold convert_to_pdf.
  rewrite (str_replace_docx_suffix stem Hstem).
  by destruct run_reply.
Qed.

Lemma convert_to_pdf_swaps_suffix_witness :
  snd (convert_to_pdf None ("talk.v2_20240101_120000" +:+ ".docx"))
  = Ret ("talk.v2_20240101_120000" +:+ ".pdf").
Proof.
  apply (convert_to_pdf_swaps_suffix None "talk.v2_20240101_120000").
  reflexivity.
Defined.

(** X12. A name in which [.docx] does not occur (another extension, an
    upper-case [.DOCX]) comes back unchanged: the name returned as the
    PDF's is then the input itself. *)
Theorem convert_to_pdf_keeps_other_names
    (run_reply : option exn) (word_file_name : string) :
  occurs ".docx" word_file_name = false ->
  snd (convert_to_pdf run_reply word_file_name) = Ret word_file_name.
Proof.
  intros Hname. unfold convert_to_pdf.
  rewrite (str_replace_absent ".docx" ".pdf" word_file_name Hname).
  by destruct run_reply.
Qed.

Lemma convert_to_pdf_keeps_other_names_witness :
  snd (convert_to_pdf None "REPORT.DOCX") = Ret "REPORT.DOCX".
Proof.
  apply (convert_to_pdf_keeps_other_names None "REPORT.DOCX").
  reflexivity.
Defined.

(** ** The name of the document *)

Lemma append_cons (c : ascii) (s t : string) :
  String c s +:+ t = String c (s +:+ t).
Proof. reflexivity. Qed.

Lemma contains_char_app (c : ascii) (s t : string) :
  contains_char c (s +:+ t) = contains_char c s || contains_char c t.
Proof.
  induction s as [| a s IH]; [reflexivity |].
  rewrite append_cons. cbn [contains_char]. by rewrite IH, orb_assoc.
Qed.

Lemma basename_no_slash (p : string) : contains_char "/" (basename p) = false.
Proof.
  induction p as [| c rest IH]; [reflexivity |].
  cbn [basename].
  destruct (contains_char "/" rest) eqn:Hrest; [exact IH |].
  destruct (Ascii.eqb c "/") eqn:Hc; [exact Hrest |].
  cbn [contains_char]. by rewrite Hc, Hrest.
Qed.

Lemma basename_join (dir name : string) :
  contains_char "/" name = false ->
  basename (dir +:+ "/" +:+ name) = name.
Proof.
  intros Hname. induction dir as [| c dir IH].
  - change (EmptyString +:+ "/" +:+ name) with (String "/" name).
    cbn [basename]. by rewrite Hname.
  - rewrite append_cons. cbn [basename].
    rewrite contains_char_app. change ("/" +:+ name) with (String "/" name).
    cbn [contains_char Ascii.eqb Bool.eqb]. rewrite orb_true_r.
    exact IH.
Qed.

Lemma basename_plain (name : string) :
  contains_char "/" name = false -> basename name = name.
Proof.
  destruct name as [| c rest]; [reflexivity |].
  cbn [contains_char basename]. intros H.
  apply orb_false_elim in H as [Hc Hrest]. by rewrite Hrest, Hc.
Qed.

Lemma splitext_root_from_keeps (c : ascii) (seen p : string) :
  contains_char c p = false ->
  contains_char c (splitext_root_from seen p) = false.
Proof.
  revert seen. induction p as [| a rest IH]; intros seen Hp; [reflexivity |].
  cbn [splitext_root_from].
  destruct (Ascii.eqb a "." && negb (contains_char "." rest)).
  - by destruct (all_dots seen).
  - cbn [contains_char] in *. apply orb_false_elim in Hp as [Ha Hrest].
    rewrite Ha. by apply IH.
Qed.

Lemma splitext_root_from_ext (seen stem ext : string) :
  contains_char "." ext = false ->
  all_dots seen = false \/ all_dots stem = false ->
  splitext_root_from seen (stem +:+ "." +:+ ext) = stem.
Proof.
  intros Hext. revert seen. induction stem as [| c stem IH]; intros seen Hdots.
  - change (EmptyString +:+ "." +:+ ext) with (String "." ext).
    cbn [splitext_root_from Ascii.eqb Bool.eqb andb]. rewrite Hext.
    destruct Hdots as [-> | Hstem]; [reflexivity | done].
  - rewrite append_cons. cbn [splitext_root_from].
    rewrite contains_char_app. change ("." +:+ ext) with (String "." ext).
    cbn [contains_char Ascii.eqb Bool.eqb]. rewrite orb_true_r, andb_false_r.
    f_equal. apply IH. cbn [all_dots] in *.
    destruct (Ascii.eqb c "."); [| by left].
    destruct Hdots as [-> | Hstem]; [by left | by right].
Qed.

(** X13. For a transcript path [dir/stem.ext] (or just [stem.ext]) whose
    last extension [ext] holds no dot and whose [stem] holds no slash and
    is not made of dots only, the base name of the document is [stem]:
    the directory and the last extension are dropped, inner dots of the
    stem are kept. *)
Theorem base_file_name_of_path (dir stem ext : string) :
  contains_char "/" stem = false ->
  contains_char "/" ext = false ->
  contains_char "." ext = false ->
  all_dots stem = false ->
  splitext_root (basename (dir +:+ "/" +:+ stem +:+ "." +:+ ext)) = stem
  /\ splitext_root (basename (stem +:+ "." +:+ ext)) = stem.
Proof.
  intros Hstem Hext Hdot Hdots.
  assert (Hname : contains_char "/" (stem +:+ "." +:+ ext) = false).
  { rewrite contains_char_app, Hstem.
    change ("." +:+ ext) with (String "." ext).
    cbn [contains_char Ascii.eqb Bool.eqb orb]. exact Hext. }
  rewrite (basename_join dir _ Hname), (basename_plain _ Hname).
  unfold splitext_root.
  rewrite (splitext_root_from_ext EmptyString stem ext Hdot) by by right.
  done.
Qed.

Lemma base_file_name_of_path_witness :
  splitext_root (basename ("/tmp/in" +:+ "/" +:+ "talk.v2" +:+ "." +:+ "txt"))
  = "talk.v2"
  /\ splitext_root (basename ("talk.v2" +:+ "." +:+ "txt")) = "talk.v2".
Proof.
  apply (base_file_name_of_path "/tmp/in" "talk.v2" "txt"); reflexivity.
Defined.

(** X14. Whatever the path of the transcript, the name under which the
    document is saved holds no slash as long as the time stamp holds none:
    the document always lands in the working directory, never beside the
    transcript. *)
Theorem word_file_name_has_no_directory (file_name now : string) :
  contains_char "/" now = false ->
  contains_char "/" (word_name (splitext_root (basename file_name)) now)
  = false.
Proof.
  intros Hnow. unfold word_name, splitext_root.
  rewrite !contains_char_app, Hnow.
  by rewrite (splitext_root_from_keeps "/" EmptyString (basename file_name)
                (basename_no_slash file_name)).
Qed.

Lemma word_file_name_has_no_directory_witness :
  contains_char "/"
    (word_name (splitext_root (basename "/tmp/in/talk.txt")) "20240101_120000")
  = false.
Proof.
  apply (word_file_name_has_no_directory "/tmp/in/talk.txt" "20240101_120000").
  reflexivity.
Defined.

(** ** A whole run *)

Lemma omap_all_None {A B} (f : A -> option B) (l : list A) :
  (forall x, f x = None) -> omap f l = [].
Proof.
  intros Hf. induction l as [| x l IH]; [reflexivity |].
  cbn [omap list_omap]. by rewrite Hf.
Qed.

Lemma omap_seq_Forall2 {A B} (f : nat -> option A) (P : A -> B -> Prop)
    (l : list B) (start : nat) :
  (forall i b, l !! i = Some b -> exists a, f (start + i)%nat = Some a /\ P a b) ->
  Forall2 P (omap f (seq start (length l))) l.
Proof.
  revert start. induction l as [| b l IH]; intros start Hl; [constructor |].
  cbn [length seq omap list_omap].
  destruct (Hl O b eq_refl) as (a & Ha & Hab).
  rewrite Nat.add_0_r in Ha. rewrite Ha. constructor; [exact Hab |].
  apply IH. intros i b' Hi.
  destruct (Hl (S i) b' Hi) as (a' & Ha' & Hab').
  exists a'. split; [| exact Hab'].
  by replace (S start + i)%nat with (start + S i)%nat by lia.
Qed.

Section WellShapedRun.
Variables (replies : nat -> post_outcome) (sid token : string).
Variables (transcript : json) (results : list (string * list subsection)).
Hypothesis replies_well_shaped :
  forall i t subs, results !! i = Some (t, subs) ->
    exists j, well_shaped (replies i) j /\ is_subsections j subs.

Local Notation titles := (fst <$> results).

Lemma well_shaped_returned i t subs :
  results !! i = Some (t, subs) ->
  exists s,
    returned replies sid token transcript titles i = Some s
    /\ is_section s (t, subs)
    /\ logged replies sid token transcript titles i = None.
Proof.
  intros Hi. destruct (replies_well_shaped i t subs Hi) as (j & Hj & Hsubs).
  exists {| title := JStr t; subsections := j |}.
  unfold returned, logged, worker. rewrite list_lookup_fmap, Hi. simpl.
  rewrite (call_second_outline_well_shaped _ _ _ _ _ _ j Hj).
  by repeat split.
Qed.

Lemma well_shaped_nothing_logged (l : list nat) :
  omap (logged replies sid token transcript titles) l = [].
Proof.
  apply omap_all_None. intros i.
  destruct (results !! i) as [[t subs] |] eqn:Hi.
  - by destruct (well_shaped_returned i t subs Hi) as (s & _ & _ & Hlog).
  - unfold logged. by rewrite list_lookup_fmap, Hi.
Qed.

Lemma well_shaped_sections :
  Forall2 is_section
    (sections_in_outline_order replies sid token transcript titles) results.
Proof.
  unfold sections_in_outline_order. rewrite length_fmap.
  apply omap_seq_Forall2. intros i [t subs] Hi.
  destruct (well_shaped_returned i t subs Hi) as (s & Hs & Hsec & _).
  by exists s.
Qed.

(** When every worker meets a well-shaped reply and the titles are pairwise
    distinct, the aggregator logs nothing and returns the sections of the
    data in outline order, whatever the completion order. *)
Lemma well_shaped_aggregate (completion : list nat) :
  NoDup titles ->
  completion ≡ₚ seq 0 (length results) ->
  exists sections,
    call_second_interaction_parallel replies completion sid token transcript
      (outline_of titles)
    = (requests_sent sid token transcript titles, Ret sections)
    /\ Forall2 is_section sections results.
Proof.
  intros Hnd Hperm. rewrite <- (length_fmap fst results) in Hperm.
  eexists. rewrite call_second_interaction_parallel_eq.
  rewrite well_shaped_nothing_logged, app_nil_r.
  rewrite (sorted_sections_NoDup _ _ _ _ _ _ Hnd Hperm).
  split; [reflexivity | apply well_shaped_sections].
Qed.
End WellShapedRun.


Lemma sample_results_well_shaped (i : nat) (t : string)
    (subs : list subsection) :
  sample_results !! i = Some (t, subs) ->
  exists j,
    well_shaped (second_replies sample_run_world i) j /\ is_subsections j subs.
Proof.
  destruct i as [| [| i]]; simpl; intros Hi; [| | done].
  - injection Hi as <- <-. exists (titled ["Welcome"]). split.
    + by eapply well_shaped_outline.
    + exists [JObj [("title", JStr "Welcome"); ("content", JArr [])]].
      split; [reflexivity |]. repeat constructor.
      exists [("title", JStr "Welcome"); ("content", JArr [])], [].
      repeat split; constructor.
  - injection Hi as <- <-. exists (JArr []). split.
    + by apply well_shaped_tolerated, tolerated_failure, failure_transport.
    + exists []. split; [reflexivity | constructor].
Defined.


(** ** The exit status *)

Lemma no_exit_exits_with_1 {A} (m : M A) : no_exit m -> exits_with_1 m.
Proof. intros Hm code Hcode. by destruct (Hm code). Qed.

Lemma no_exit_bind {A B} (m : M A) (f : A -> M B) :
  no_exit m -> (forall a, no_exit (f a)) -> no_exit (bind m f).
Proof.
  destruct m as [t [a | e | code]]; intros Hm Hf code'; simpl.
  - specialize (Hf a code'). by destruct (f a) as [t' o'].
  - done.
  - by destruct (Hm code).
Qed.

Lemma exits_with_1_bind {A B} (m : M A) (f : A -> M B) :
  exits_with_1 m -> (forall a, exits_with_1 (f a)) -> exits_with_1 (bind m f).
Proof.
  destruct m as [t [a | e | code]]; intros Hm Hf code'; simpl.
  - specialize (Hf a code'). by destruct (f a) as [t' o'].
  - done.
  - intros [= <-]. by apply Hm.
Qed.

Lemma no_exit_lift {A} (o : outcome A) :
  (forall code, o <> Exit code) -> no_exit (lift o).
Proof. done. Qed.

Lemma no_exit_quiet {A} (m : M A) : quiet m -> no_exit m.
Proof. by intros [_ Hm]. Qed.

Lemma no_exit_execute_interaction reply interaction_id token data :
  no_exit (execute_interaction reply interaction_id token data).
Proof.
  intros code.
  by destruct (execute_interaction_shape reply interaction_id token data)
    as [[j ->] | [e ->]].
Qed.

Lemma no_exit_call_second_outline reply sid token transcript outline item :
  no_exit (call_second_outline reply sid token transcript outline item).
Proof.
  intros code.
  destruct (call_second_outline_shape reply sid token transcript outline item)
    as (o & -> & [[subs ->] | [e ->]]); done.
Qed.

Lemma py_get_no_exit j k dflt code : py_get j k dflt <> Exit code.
Proof. by destruct j. Qed.

Lemma py_index_no_exit container v code : py_index container v <> Exit code.
Proof.
  destruct container; simpl; try done.
  - destruct v; try done. by destruct (str_find _ _ _).
  - by destruct (list_find_eq _ _).
Qed.

Lemma py_contains_no_exit k j code : py_contains k j <> Exit code.
Proof. by destruct j. Qed.

Lemma no_exit_mapM {A B} (f : A -> M B) (l : list A) :
  (forall x, no_exit (f x)) -> no_exit (mapM f l).
Proof.
  intros Hf. induction l as [| x l IH]; [done |].
  cbn [mapM]. apply no_exit_bind; [apply Hf |].
  intros y. apply no_exit_bind; [exact IH | done].
Qed.

Lemma no_exit_collect futures completion sections :
  (forall i item code, futures !! i <> Some (item, Exit code)) ->
  no_exit (collect futures completion sections).
Proof.
  intros Hfutures. revert sections.
  induction completion as [| i rest IH]; intros sections; [done |].
  cbn [collect].
  destruct (futures !! i) as [[item [s | e | code]] |] eqn:Hi; try apply IH.
  - apply no_exit_bind; [done | intros _; apply IH].
  - by destruct (Hfutures i item code).
Qed.

(** The aggregator never exits, whatever value it is given as outline. *)
Lemma no_exit_call_second_interaction_parallel replies completion sid token
    transcript first_level_outline :
  no_exit (call_second_interaction_parallel replies completion sid token
             transcript first_level_outline).
Proof.
  unfold call_second_interaction_parallel.
  apply no_exit_bind; [apply no_exit_lift, py_iter_no_exit | intros items].
  apply no_exit_bind; [done | intros _].
  apply no_exit_bind.
  - apply no_exit_collect. intros i item code Hi.
    rewrite list_lookup_fmap, list_lookup_imap in Hi.
    destruct (items !! i) as [x |]; simpl in Hi; [| done].
    injection Hi as _ Hexit.
    by destruct (no_exit_call_second_outline (replies i) sid token transcript
                   first_level_outline x code).
  - intros sections. unfold sorted. apply no_exit_bind; [| done].
    apply no_exit_mapM. intros x.
    apply no_exit_bind; [apply no_exit_lift, py_index_no_exit | done].
Qed.

Lemma no_exit_create_word_document now save_reply transcript sections base :
  no_exit (create_word_document now save_reply transcript sections base).
Proof.
  unfold create_word_document.
  apply no_exit_bind;
    [apply no_exit_quiet, quiet_mapM, quiet_section_blocks | intros blocks].
  apply no_exit_bind; [done | intros _].
  destruct save_reply; [done |]. by apply no_exit_bind.
Qed.

Lemma no_exit_convert_to_pdf run_reply word_file_name :
  no_exit (convert_to_pdf run_reply word_file_name).
Proof. unfold convert_to_pdf. by destruct run_reply. Qed.

Lemma exits_with_1_read_file_as_json fs filename :
  exits_with_1 (read_file_as_json fs filename).
Proof.
  unfold read_file_as_json. destruct (fs filename) as [stored | e]; [done |].
  destruct (is_FileNotFoundError e); [| done].
  intros code. simpl. by intros [= <-].
Qed.

(** X16. Whatever the command line and the outside world, a run ends with
    status 0 or 1: the only [sys.exit] the script ever reaches is
    [sys.exit(1)] (usage, missing file, first-stage error), no worker and
    no later step exits, and an uncaught exception gives status 1. *)
Theorem main_exit_status_0_or_1 (w : world) (argv : list string) :
  exits_with_1 (main w argv)
  /\ (exit_status (main w argv) = 0%Z \/ exit_status (main w argv) = 1%Z).
Proof.
  assert (Hexit : exits_with_1 (main w argv)).
  { unfold main.
    destruct argv as [| a0 [| a1 [| a2 [| a3 [| a4 [| a5 rest]]]]]];
      try (intros code; simpl; by intros [= <-]).
    apply exits_with_1_bind; [apply exits_with_1_read_file_as_json |].
    intros data.
    apply exits_with_1_bind;
      [apply no_exit_exits_with_1, no_exit_execute_interaction |].
    intros result.
    apply exits_with_1_bind;
      [apply no_exit_exits_with_1, no_exit_lift, py_contains_no_exit |].
    intros [|].
    - apply exits_with_1_bind;
        [apply no_exit_exits_with_1, no_exit_lift, py_getitem_no_exit |].
      intros msg code. simpl. by intros [= <-].
    - apply exits_with_1_bind;
        [apply no_exit_exits_with_1, no_exit_lift, py_get_no_exit |].
      intros r.
      apply exits_with_1_bind;
        [apply no_exit_exits_with_1, no_exit_lift, py_get_no_exit |].
      intros first_level_outline.
      destruct (negb (py_truthy first_level_outline)); [done |].
      apply no_exit_exits_with_1.
      apply no_exit_bind; [apply no_exit_lift, py_getitem_no_exit |].
      intros transcript.
      apply no_exit_bind; [apply no_exit_call_second_interaction_parallel |].
      intros sections.
      apply no_exit_bind; [apply no_exit_create_word_document |].
      intros word_file_name.
      apply no_exit_bind; [apply no_exit_convert_to_pdf | done]. }
  split; [exact Hexit |].
  unfold exit_status.
  destruct (snd (main w argv)) as [[] | e | code] eqn:Hrun;
    [by left | by right | right; by apply Hexit].
Qed.
